(** * Collection runner and script sandbox: a shallow embedding

    The development follows [services/collectionRunner.ts]
    ([replaceVariables], [executeRequest], [runCollection]) and
    [services/scriptRunner.ts] ([runScript]).

    JavaScript strings are modelled as [string]; the characters that the
    placeholder pattern looks at are all ASCII, every other byte is copied
    through untouched.  A variable bag ([Record<string, any>]) is a finite map
    from names to JSON values.  Exceptions and rejected promises are modelled
    by the [Thrown] completion, which carries the [message] of the error. *)

From Stdlib Require Import ZArith List Ascii String Bool Lia.
From stdpp Require Import base option list gmap strings pretty.

Local Open Scope Z_scope.

(* string concatenation unfolds on a constructor, as list concatenation does *)
#[local] Arguments String.append !s1 s2 / : simpl nomatch.

(** ** Completions: a value, or a thrown error (identified with its message) *)

Inductive completion (A : Type) : Type :=
| Returned (a : A)
| Thrown (message : string).
Arguments Returned {A} a.
Arguments Thrown {A} message.

Definition bind {A B : Type} (c : completion A) (k : A -> completion B) : completion B :=
  match c with
  | Returned a => k a
  | Thrown m => Thrown m
  end.

Notation "'let*' x ':=' c 'in' k" := (bind c (fun x => k))
  (at level 10, x name, c at level 100, k at level 200).

(** ** JSON values and the JavaScript values a bag lookup can give *)

#[warnings="-register-all"]
Inductive json : Type :=
| JNull
| JBool (b : bool)
| JNum (n : Z)    (* the integers, which print in plain decimal below 10^21 *)
| JStr (s : string)
| JArr (items : list json)
| JObj (props : list (string * json)).

Inductive jsval : Type :=
| VUndefined
| VJson (j : json)
| VFunction (fname : string)   (* a built-in function object *)
| VObjectPrototype.            (* the object [Object.prototype] *)

(** ToBoolean *)
Definition json_truthy (j : json) : bool :=
  match j with
  | JNull => false
  | JBool b => b
  | JNum n => negb (n =? 0)
  | JStr s => negb (String.eqb s "")
  | JArr _ | JObj _ => true
  end.

Definition ToBoolean (v : jsval) : bool :=
  match v with
  | VUndefined => false
  | VJson j => json_truthy j
  | VFunction _ | VObjectPrototype => true
  end.

Definition has_own (key : string) (props : list (string * json)) : bool :=
  existsb (fun kv => String.eqb (fst kv) key) props.

(** ToString.  An array joins the strings of its elements with commas, null
    elements giving the empty string.  A plain object is converted by
    OrdinaryToPrimitive: an own [toString] property that came from JSON is not
    callable, [Object.prototype.valueOf] gives back the object itself, and the
    conversion throws a TypeError; without an own [toString] the inherited one
    answers ["[object Object]"]. *)
Fixpoint json_ToString (j : json) : completion string :=
  match j with
  | JNull => Returned "null"
  | JBool b => Returned (if b then "true" else "false")
  | JNum n => Returned (pretty n)
  | JStr s => Returned s
  | JArr items =>
      (fix join (l : list json) : completion string :=
         match l with
         | [] => Returned ""
         | x :: xs =>
             let* a := (match x with JNull => Returned "" | _ => json_ToString x end) in
             match xs with
             | [] => Returned a
             | _ => let* b := join xs in Returned (a +:+ "," +:+ b)
             end
         end) items
  | JObj props =>
      if has_own "toString" props
      then Thrown "Cannot convert object to primitive value"
      else Returned "[object Object]"
  end.

Definition ToString (v : jsval) : completion string :=
  match v with
  | VUndefined => Returned "undefined"
  | VJson j => json_ToString j
  | VFunction f => Returned ("function " +:+ f +:+ "() { [native code] }")
  | VObjectPrototype => Returned "[object Object]"
  end.

(** The properties every plain object inherits from [Object.prototype]. *)
Definition Object_prototype (key : string) : option jsval :=
  if String.eqb key "constructor" then Some (VFunction "Object")
  else if String.eqb key "__proto__" then Some VObjectPrototype
  else if existsb (String.eqb key)
            ["toString"; "toLocaleString"; "valueOf"; "hasOwnProperty";
             "isPrototypeOf"; "propertyIsEnumerable"; "__defineGetter__";
             "__defineSetter__"; "__lookupGetter__"; "__lookupSetter__"]
  then Some (VFunction key)
  else None.

(** [variables[variableName]]: an own property first, then the prototype. *)
Definition Get (variables : gmap string json) (key : string) : jsval :=
  match variables !! key with
  | Some j => VJson j
  | None => default VUndefined (Object_prototype key)
  end.

(** ** The pattern [/\{\{(\w+)\}\}/g] *)

Definition is_word_char (c : ascii) : bool :=
  let n := N_of_ascii c in
  ((48 <=? n) && (n <=? 57) || (65 <=? n) && (n <=? 90)
   || (97 <=? n) && (n <=? 122) || (n =? 95))%N.

(** [\w+]: the longest run of word characters at the head, and what follows.
    Backtracking to a shorter run never helps, since the pattern goes on with
    a brace, which is not a word character. *)
Fixpoint word_run (s : string) : string * string :=
  match s with
  | String c s' =>
      if is_word_char c
      then let (w, r) := word_run s' in (String c w, r)
      else (EmptyString, s)
  | EmptyString => (EmptyString, EmptyString)
  end.

(** A match anchored at the head of [s]: the captured name, and the text after
    the match. *)
Definition match_placeholder (s : string) : option (string * string) :=
  match s with
  | String a (String b s1) =>
      if Ascii.eqb a "{" && Ascii.eqb b "{" then
        match word_run s1 with
        | (String c w, String d (String e rest)) =>
            if Ascii.eqb d "}" && Ascii.eqb e "}"
            then Some (String c w, rest) else None
        | _ => None
        end
      else None
  | _ => None
  end.

Definition placeholder (name : string) : string := "{{" +:+ name +:+ "}}".

(** [hay.includes(needle)] *)
Fixpoint contains (needle hay : string) : bool :=
  String.prefix needle hay
  || match hay with
     | String _ rest => contains needle rest
     | EmptyString => false
     end.

Section Replace.
(** [str.replace(re, callback)] with the global flag: matches are taken left
    to right and do not overlap; each is replaced by the string of what the
    callback returns, the text in between is kept.  [skip] counts the
    characters of the current match that are still to be passed over. *)
Variable callback : string -> string -> jsval.

Fixpoint replace_global (skip : nat) (s : string) : completion string :=
  match s with
  | EmptyString => Returned EmptyString
  | String c s' =>
      match skip with
      | S k => replace_global k s'
      | O =>
          match match_placeholder s with
          | Some (name, _) =>
              let* r := ToString (callback (placeholder name) name) in
              let* t := replace_global (String.length name + 3) s' in
              Returned (r +:+ t)
          | None =>
              let* t := replace_global 0 s' in
              Returned (String c t)
          end
      end
  end.
End Replace.

(** The callback of [replaceVariables]: [variables[variableName] || match]. *)
Definition substitute (variables : gmap string json)
    (match_ variableName : string) : jsval :=
  let v := Get variables variableName in
  if ToBoolean v then v else VJson (JStr match_).

Definition replaceVariables (str : string) (variables : gmap string json)
  : completion string :=
  if String.eqb str "" then Returned str
  else replace_global (substitute variables) 0 str.

(** ** Identifiers and occurrences of the pattern *)

Fixpoint all_word (s : string) : bool :=
  match s with
  | EmptyString => true
  | String c s' => is_word_char c && all_word s'
  end.

(** One or more word characters. *)
Definition is_identifier (s : string) : bool :=
  negb (String.eqb s "") && all_word s.

(** [s] has an occurrence of [{{identifier}}] somewhere. *)
Definition has_placeholder (s : string) : Prop :=
  exists pre name post,
    is_identifier name = true /\ s = pre +:+ placeholder name +:+ post.

Fixpoint contains_placeholder (s : string) : bool :=
  match s with
  | EmptyString => false
  | String _ s' => bool_decide (is_Some (match_placeholder s)) || contains_placeholder s'
  end.

(** Every truthy value of the bag has a string. *)
Definition printable (variables : gmap string json) : Prop :=
  forall k v, variables !! k = Some v -> json_truthy v = true ->
              exists s, json_ToString v = Returned s.

(** The substitution as the specification words it: decided by the presence
    of the key in the bag. *)
Definition substitute_by_membership (variables : gmap string json)
    (match_ variableName : string) : completion string :=
  match variables !! variableName with
  | Some v => json_ToString v
  | None => Returned match_
  end.

(** ** The runtime the runner calls into

    The clock, the JSON codec, the network and the timer are not part of the
    repository; they are the fields of a [Runtime].  [World] is the state of
    everything outside the process; the clock is read from it, and it moves
    only where the code waits: for a response, or for a timer.  The network
    always answers, with a response or with an error: a call that never
    settles is outside the model. *)

Record Response : Type := {
  resp_status : Z;
  resp_statusText : string;
  resp_data : json;
  resp_headers : json;
}.

Record AxiosRequestConfig : Type := {
  cfg_method : string;
  cfg_url : string;
  cfg_headers : option json;
  cfg_data : option json;
  cfg_params : option json;
  validateStatus : Z -> bool;
}.

Class Runtime : Type := {
  World : Type;
  Date_now : World -> Z;
  toISOString : Z -> string;
  JSON_stringify : json -> string;
  JSON_parse : string -> completion json;
  transport : AxiosRequestConfig -> World -> completion Response * World;
  setTimeout : Z -> World -> World;
  uuidv4 : World -> string * World;
}.

(** [axios(config)]: the response of the network, rejected when
    [validateStatus] turns its status code down. *)
Definition axios `{Runtime} (config : AxiosRequestConfig) (w : World)
  : completion Response * World :=
  match transport config w with
  | (Returned response, w') =>
      if validateStatus config (resp_status response)
      then (Returned response, w')
      else (Thrown ("Request failed with status code "
                    +:+ pretty (resp_status response)), w')
  | (Thrown m, w') => (Thrown m, w')
  end.

(** ** Requests and results *)

Module RequestData.
Record t : Type := {
  id : Z;
  name : string;
  method : string;
  url : string;
  headers : option json;
  body : option json;
  params : option json;
}.
End RequestData.

Module RequestResult.
Inductive Status : Type := completed | failed.

Record t : Type := {
  requestId : Z;
  name : string;
  method : string;
  url : string;
  status : Status;
  response : option Response;
  error : option string;
  duration : Z;
  timestamp : string;
}.

Definition is_completed (r : t) : bool :=
  match status r with completed => true | failed => false end.
Definition is_failed (r : t) : bool :=
  match status r with failed => true | completed => false end.
End RequestResult.

Inductive ExecutionMode : Type := sequential | parallel.
Inductive Environment : Type := development | staging | production.

Module RunOptions.
Record t : Type := {
  executionMode : ExecutionMode;
  delayBetweenRequests : option Z;
  environment : Environment;
  variables : gmap string json;
}.
End RunOptions.

Module RunSummary.
Record t : Type := {
  total : nat;
  completed : nat;
  failed : nat;
  totalDuration : Z;
}.
End RunSummary.

Module RunOutput.
Inductive Status : Type := running | completed | failed.

Record t : Type := {
  runId : string;
  status : Status;
  results : list RequestResult.t;
  summary : RunSummary.t;
}.
End RunOutput.

(** The URL of the request can be resolved against the bag. *)
Definition resolvable (variables : gmap string json) (request : RequestData.t)
  : Prop :=
  exists url, replaceVariables (RequestData.url request) variables = Returned url.

(** What the runner does, in order; the log is not in the source, it is there
    to state in which order things happened. *)
Inductive event : Type :=
| Started (requestId : Z)
| Finished (requestId : Z)
| Delayed (ms : Z).

(** A run in progress: the world, and the log so far. *)
Record RunState (W : Type) : Type := { world : W; trace : list event }.
Arguments world {W} _.
Arguments trace {W} _.

(** ** [executeRequest] *)

Section Runner.
Context `{rt : Runtime}.

(** [x ? JSON.parse(replaceVariables(JSON.stringify(x), variables)) : undefined] *)
Definition resolve_json (field : option json) (variables : gmap string json)
  : completion (option json) :=
  match field with
  | Some j =>
      if json_truthy j then
        let* text := replaceVariables (JSON_stringify j) variables in
        let* v := JSON_parse text in
        Returned (Some v)
      else Returned None
  | None => Returned None
  end.

Definition make_config (request : RequestData.t) (url : string)
    (variables : gmap string json) : completion AxiosRequestConfig :=
  let* headers := resolve_json (RequestData.headers request) variables in
  let* data := resolve_json (RequestData.body request) variables in
  let* params := resolve_json (RequestData.params request) variables in
  Returned {| cfg_method := RequestData.method request;
              cfg_url := url;
              cfg_headers := headers;
              cfg_data := data;
              cfg_params := params;
              validateStatus := fun _ => true |}.

(** The record [result] as it stands when the function returns. *)
Definition make_result (request : RequestData.t) (url timestamp : string)
    (outcome : completion Response) (duration : Z) : RequestResult.t :=
  {| RequestResult.requestId := RequestData.id request;
     RequestResult.name := RequestData.name request;
     RequestResult.method := RequestData.method request;
     RequestResult.url := url;
     RequestResult.timestamp := timestamp;
     RequestResult.status :=
       match outcome with
       | Returned _ => RequestResult.completed
       | Thrown _ => RequestResult.failed
       end;
     RequestResult.response :=
       match outcome with
       | Returned response => Some response
       | Thrown _ => None
       end;
     RequestResult.error :=
       match outcome with
       | Returned _ => None
       | Thrown m => Some m
       end;
     RequestResult.duration := duration |}.

(** What a call of the [async] function [executeRequest] is once it has run
    up to its [await]. *)
Inductive in_flight : Type :=
| Rejected (message : string)
    (* the URL could not be resolved: thrown before the [try] *)
| Settled (result : RequestResult.t)
    (* the [catch] ran before anything was awaited *)
| Awaiting (startTime : Z) (request : RequestData.t)
    (url timestamp : string) (config : AxiosRequestConfig).
    (* waiting for [axios(config)] *)

Definition executeRequest_begin (request : RequestData.t)
    (variables : gmap string json) (w : World) : in_flight :=
  let startTime := Date_now w in
  match replaceVariables (RequestData.url request) variables with
  | Thrown m => Rejected m
  | Returned url =>
      let timestamp := toISOString (Date_now w) in
      match make_config request url variables with
      | Returned config => Awaiting startTime request url timestamp config
      | Thrown m =>
          Settled (make_result request url timestamp (Thrown m)
                     (Date_now w - startTime))
      end
  end.

(** The rest of the function, from the moment the awaited call settles. *)
Definition executeRequest_resume (startTime : Z) (request : RequestData.t)
    (url timestamp : string) (config : AxiosRequestConfig) (w : World)
  : RequestResult.t * World :=
  let (outcome, w') := axios config w in
  (make_result request url timestamp outcome (Date_now w' - startTime), w').

Definition executeRequest (request : RequestData.t)
    (variables : gmap string json) (w : World)
  : completion RequestResult.t * World :=
  match executeRequest_begin request variables w with
  | Rejected m => (Thrown m, w)
  | Settled result => (Returned result, w)
  | Awaiting startTime request url timestamp config =>
      let (result, w') :=
        executeRequest_resume startTime request url timestamp config w in
      (Returned result, w')
  end.

(** ** [runCollection] *)

Definition Run : Type := RunState World.

Definition log (e : event) (run : Run) : Run :=
  {| world := world run; trace := trace run ++ [e] |}.

Definition at_world (w : World) (run : Run) : Run :=
  {| world := w; trace := trace run |}.

(** [if (options.delayBetweenRequests) await new Promise(r => setTimeout(r, d))] *)
Definition delay (options : RunOptions.t) (run : Run) : Run :=
  match RunOptions.delayBetweenRequests options with
  | Some d =>
      if d =? 0 then run
      else log (Delayed d) (at_world (setTimeout d (world run)) run)
  | None => run
  end.

(** The [for ... of] loop of the sequential mode. *)
Fixpoint run_sequential (requests : list RequestData.t)
    (options : RunOptions.t) (run : Run)
  : completion (list RequestResult.t) * Run :=
  match requests with
  | [] => (Returned [], run)
  | request :: rest =>
      let run1 := log (Started (RequestData.id request)) run in
      match executeRequest request (RunOptions.variables options) (world run1) with
      | (Thrown m, w) => (Thrown m, at_world w run1)
      | (Returned result, w) =>
          let run2 := log (Finished (RequestData.id request)) (at_world w run1) in
          let run3 := delay options run2 in
          match run_sequential rest options run3 with
          | (Returned results, run4) => (Returned (result :: results), run4)
          | (Thrown m, run4) => (Thrown m, run4)
          end
      end
  end.

(** The parallel mode.  [requests.map(...)] starts every call, in input
    order and in the same world; the calls that wait for the network are
    then answered one at a time, in an order the runner does not choose:
    first the positions named by [schedule], then whatever is left. *)
Definition settle_at (st : list in_flight * Run) (k : nat)
  : list in_flight * Run :=
  match fst st !! k with
  | Some (Awaiting startTime request url timestamp config) =>
      let (result, w') :=
        executeRequest_resume startTime request url timestamp config
          (world (snd st)) in
      (<[k := Settled result]> (fst st),
       log (Finished (RequestData.id request)) (at_world w' (snd st)))
  | _ => st
  end.

Definition settle_all (schedule : list nat) (promises : list in_flight)
    (run : Run) : list in_flight * Run :=
  fold_left settle_at (schedule ++ seq 0 (length promises)) (promises, run).

(** The message of the first rejected promise, if any. *)
Fixpoint rejection (promises : list in_flight) : option string :=
  match promises with
  | [] => None
  | Rejected m :: _ => Some m
  | _ :: rest => rejection rest
  end.

(** The values of the settled promises, by position. *)
Fixpoint settled_values (promises : list in_flight) : list RequestResult.t :=
  match promises with
  | [] => []
  | Settled result :: rest => result :: settled_values rest
  | _ :: rest => settled_values rest
  end.

(** [await Promise.all(promises)]: rejected as soon as one promise is, and
    otherwise fulfilled, when all are, with the values in the order of the
    promises. *)
Definition run_parallel (schedule : list nat) (requests : list RequestData.t)
    (options : RunOptions.t) (run : Run)
  : completion (list RequestResult.t) * Run :=
  let promises :=
    map (fun request =>
           executeRequest_begin request (RunOptions.variables options) (world run))
        requests in
  let run1 :=
    fold_left
      (fun r request =>
         let r1 := log (Started (RequestData.id request)) r in
         match executeRequest_begin request (RunOptions.variables options)
                 (world run) with
         | Settled _ => log (Finished (RequestData.id request)) r1
         | _ => r1
         end)
      requests run in
  match rejection promises with
  | Some m => (Thrown m, run1)
  | None =>
      let (settled, run2) := settle_all schedule promises run1 in
      (Returned (settled_values settled), run2)
  end.

Definition runCollection (schedule : list nat) (requests : list RequestData.t)
    (options : RunOptions.t) (run : Run) : completion RunOutput.t * Run :=
  let (runId, w0) := uuidv4 (world run) in
  let runStartTime := Date_now w0 in
  let (outcome, run') :=
    match RunOptions.executionMode options with
    | sequential => run_sequential requests options (at_world w0 run)
    | parallel => run_parallel schedule requests options (at_world w0 run)
    end in
  match outcome with
  | Thrown m => (Thrown m, run')
  | Returned results =>
      let totalDuration := Date_now (world run') - runStartTime in
      let summary :=
        {| RunSummary.total := length requests;
           RunSummary.completed :=
             length (filter (fun r => RequestResult.is_completed r = true) results);
           RunSummary.failed :=
             length (filter (fun r => RequestResult.is_failed r = true) results);
           RunSummary.totalDuration := totalDuration |} in
      (Returned
         {| RunOutput.runId := runId;
            RunOutput.status :=
              if (0 <? RunSummary.failed summary)%nat
              then RunOutput.failed else RunOutput.completed;
            RunOutput.results := results;
            RunOutput.summary := summary |},
       run')
  end.

(** The sum of the durations of the requests. *)
Definition total_duration (results : list RequestResult.t) : Z :=
  foldr (fun r acc => RequestResult.duration r + acc) 0 results.

(** What the log gains for one request of a sequential run. *)
Definition steps (options : RunOptions.t) (request : RequestData.t)
  : list event :=
  [Started (RequestData.id request); Finished (RequestData.id request)]
  ++ match RunOptions.delayBetweenRequests options with
     | Some d => if d =? 0 then [] else [Delayed d]
     | None => []
     end.

Definition is_awaiting (p : in_flight) : bool :=
  match p with Awaiting _ _ _ _ _ => true | _ => false end.

(** The promise at a position belongs to the request at that position. *)
Definition slot (request : RequestData.t) (p : in_flight) : Prop :=
  match p with
  | Rejected _ => False
  | Settled result => RequestResult.requestId result = RequestData.id request
  | Awaiting _ request' _ _ _ => request' = request
  end.
End Runner.

(** ** The script sandbox ([runScript])

    The engine behind [isolated-vm] is not part of the repository.  What it
    does with a piece of code is the field [engine_eval] of an [Engine]: given
    the memory limit of the isolate, the bindings of the global object of the
    context, the code and the timeout, the script either gives a value or
    fails (an exception, a syntax error, the timeout, the memory limit) with a
    message; the boolean tells whether the engine disposed of the isolate
    while the code ran, as it does when the memory limit is hit.  A binding
    made with [new ivm.Reference(variables)] is modelled by the bag it refers
    to.  Making an isolate, its context and a binding is taken not to fail:
    none of the three depends on the script. *)

Class Engine : Type := {
  handle : Type;
  engine_eval :
    Z -> gmap string (gmap string json) -> string -> Z -> completion handle * bool;
  handle_copy : handle -> completion (gmap string json);
}.

Module Isolate.
Record t : Type := {
  memoryLimit : Z;
  global : gmap string (gmap string json);
  isDisposed : bool;
}.

Definition create (limit : Z) : t :=
  {| memoryLimit := limit; global := ∅; isDisposed := false |}.

Definition set (key : string) (value : gmap string json) (i : t) : t :=
  {| memoryLimit := memoryLimit i;
     global := <[key := value]> (global i);
     isDisposed := isDisposed i |}.

Definition disposed (i : t) : t :=
  {| memoryLimit := memoryLimit i; global := global i; isDisposed := true |}.
End Isolate.

Module ScriptRunResult.
Record t : Type := {
  variables : gmap string json;
  error : option string;
}.
End ScriptRunResult.

Definition LF : string := String (ascii_of_nat 10) EmptyString.

(** The template literal that wraps the script. *)
Definition wrap_script (script : string) : string :=
  LF +:+ "      // The user script will run here"
  +:+ LF +:+ "      " +:+ script
  +:+ LF +:+ "      // Return the modified 'pm' object"
  +:+ LF +:+ "      return pm;"
  +:+ LF +:+ "    ".

Section Sandbox.
Context `{engine : Engine}.

(** The state of the sandbox library: every isolate made so far, an isolate
    being known by its position. *)
Definition isolate_lookup (iso : nat) (isolates : list Isolate.t) : Isolate.t :=
  default (Isolate.create 0) (isolates !! iso).

(** [isolate.dispose()], which throws on an isolate already disposed of. *)
Definition Isolate_dispose (iso : nat) (isolates : list Isolate.t)
  : completion unit * list Isolate.t :=
  if Isolate.isDisposed (isolate_lookup iso isolates)
  then (Thrown "Isolate is already disposed", isolates)
  else (Returned tt, alter Isolate.disposed iso isolates).

(** [context.eval(code, { timeout })] *)
Definition Context_eval (iso : nat) (code : string) (timeout : Z)
    (isolates : list Isolate.t) : completion handle * list Isolate.t :=
  let i := isolate_lookup iso isolates in
  let (outcome, died) :=
    engine_eval (Isolate.memoryLimit i) (Isolate.global i) code timeout in
  (outcome, if died then alter Isolate.disposed iso isolates else isolates).

Definition runScript (script : option string) (variables : gmap string json)
    (isolates : list Isolate.t)
  : completion ScriptRunResult.t * list Isolate.t :=
  match script with
  | None | Some EmptyString =>
      (* if (!script) *)
      (Returned {| ScriptRunResult.variables := variables;
                   ScriptRunResult.error := None |}, isolates)
  | Some (String _ _ as script) =>
      (* new ivm.Isolate({ memoryLimit: 128 }); createContext() *)
      let isolate := length isolates in
      let s1 := isolates ++ [Isolate.create 128] in
      (* jail.set('pm', new ivm.Reference(variables)) *)
      let s2 := alter (Isolate.set "pm" variables) isolate s1 in
      (* try / catch *)
      let (evaluated, s3) := Context_eval isolate (wrap_script script) 1000 s2 in
      let answer :=
        match (let* result := evaluated in handle_copy result) with
        | Returned newVariables =>
            {| ScriptRunResult.variables := newVariables;
               ScriptRunResult.error := None |}
        | Thrown m =>
            {| ScriptRunResult.variables := variables;
               ScriptRunResult.error := Some m |}
        end in
      (* finally *)
      if negb (Isolate.isDisposed (isolate_lookup isolate s3)) then
        match Isolate_dispose isolate s3 with
        | (Returned _, s4) => (Returned answer, s4)
        | (Thrown m, s4) => (Thrown m, s4)
        end
      else (Returned answer, s3)
  end.
End Sandbox.

(** The isolate of a call, as the call leaves it. *)
Definition spent_isolate (variables : gmap string json) : Isolate.t :=
  {| Isolate.memoryLimit := 128;
     Isolate.global := <["pm" := variables]> ∅;
     Isolate.isDisposed := true |}.

(** What a call with a script answers. *)
Definition answer (variables : gmap string json)
    (copied : completion (gmap string json)) : ScriptRunResult.t :=
  match copied with
  | Returned newVariables =>
      {| ScriptRunResult.variables := newVariables;
         ScriptRunResult.error := None |}
  | Thrown m =>
      {| ScriptRunResult.variables := variables;
         ScriptRunResult.error := Some m |}
  end.

(** ** A small runtime and a small engine to run the definitions on *)

Module Sample.
Definition DQ : ascii := ascii_of_nat 34.
Definition BS : ascii := ascii_of_nat 92.

(** JSON text of a value: no white space, quotes and backslashes escaped. *)
Fixpoint escape (s : string) : string :=
  match s with
  | EmptyString => EmptyString
  | String c s' =>
      if Ascii.eqb c DQ || Ascii.eqb c BS
      then String BS (String c (escape s'))
      else String c (escape s')
  end.

Definition quote (s : string) : string :=
  String DQ (escape s +:+ String DQ EmptyString).

Fixpoint stringify (j : json) : string :=
  match j with
  | JNull => "null"
  | JBool b => if b then "true" else "false"
  | JNum n => pretty n
  | JStr s => quote s
  | JArr items =>
      "[" +:+
      (fix go (l : list json) : string :=
         match l with
         | [] => ""
         | x :: xs =>
             stringify x +:+ match xs with [] => "" | _ => "," +:+ go xs end
         end) items
      +:+ "]"
  | JObj props =>
      "{" +:+
      (fix go (l : list (string * json)) : string :=
         match l with
         | [] => ""
         | (k, v) :: xs =>
             quote k +:+ ":" +:+ stringify v
             +:+ match xs with [] => "" | _ => "," +:+ go xs end
         end) props
      +:+ "}"
  end.

(** A parser for the same fragment: integers, strings with the escapes
    above, arrays, objects, the three literals; white space between tokens
    is not accepted. *)
Fixpoint parse_chars (s : string) : option (string * string) :=
  match s with
  | EmptyString => None
  | String c s' =>
      if Ascii.eqb c DQ then Some (EmptyString, s')
      else if Ascii.eqb c BS then
        match s' with
        | String e s'' =>
            if Ascii.eqb e DQ || Ascii.eqb e BS then
              match parse_chars s'' with
              | Some (body, rest) => Some (String e body, rest)
              | None => None
              end
            else None
        | EmptyString => None
        end
      else
        match parse_chars s' with
        | Some (body, rest) => Some (String c body, rest)
        | None => None
        end
  end.

Definition is_digit (c : ascii) : bool :=
  ((48 <=? N_of_ascii c) && (N_of_ascii c <=? 57))%N.

Fixpoint parse_digits (acc : Z) (s : string) : Z * string :=
  match s with
  | String c s' =>
      if is_digit c
      then parse_digits (10 * acc + Z.of_N (N_of_ascii c) - 48) s'
      else (acc, s)
  | EmptyString => (acc, s)
  end.

Definition strip (word : string) (s : string) : option string :=
  if String.prefix word s
  then Some (String.substring (String.length word)
               (String.length s - String.length word) s)
  else None.

Fixpoint parse_value (fuel : nat) (s : string) : option (json * string) :=
  match fuel with
  | O => None
  | S fuel =>
      match s with
      | EmptyString => None
      | String c s' =>
          if Ascii.eqb c DQ then
            match parse_chars s' with
            | Some (body, rest) => Some (JStr body, rest)
            | None => None
            end
          else if Ascii.eqb c "[" then
            match s' with
            | String "]" rest => Some (JArr [], rest)
            | _ =>
                match parse_items fuel s' with
                | Some (items, rest) => Some (JArr items, rest)
                | None => None
                end
            end
          else if Ascii.eqb c "{" then
            match s' with
            | String "}" rest => Some (JObj [], rest)
            | _ =>
                match parse_members fuel s' with
                | Some (props, rest) => Some (JObj props, rest)
                | None => None
                end
            end
          else if Ascii.eqb c "-" then
            match s' with
            | String d _ =>
                if is_digit d
                then let (n, rest) := parse_digits 0 s' in Some (JNum (- n), rest)
                else None
            | EmptyString => None
            end
          else if is_digit c then
            let (n, rest) := parse_digits 0 s in Some (JNum n, rest)
          else
            match strip "null" s, strip "true" s, strip "false" s with
            | Some rest, _, _ => Some (JNull, rest)
            | _, Some rest, _ => Some (JBool true, rest)
            | _, _, Some rest => Some (JBool false, rest)
            | _, _, _ => None
            end
      end
  end
with parse_items (fuel : nat) (s : string) : option (list json * string) :=
  match fuel with
  | O => None
  | S fuel =>
      match parse_value fuel s with
      | Some (x, String "," rest) =>
          match parse_items fuel rest with
          | Some (xs, rest') => Some (x :: xs, rest')
          | None => None
          end
      | Some (x, String "]" rest) => Some ([x], rest)
      | _ => None
      end
  end
with parse_members (fuel : nat) (s : string)
  : option (list (string * json) * string) :=
  match fuel with
  | O => None
  | S fuel =>
      match s with
      | String q s' =>
          if Ascii.eqb q DQ then
            match parse_chars s' with
            | Some (key, String ":" s'') =>
                match parse_value fuel s'' with
                | Some (v, String "," rest) =>
                    match parse_members fuel rest with
                    | Some (kvs, rest') => Some ((key, v) :: kvs, rest')
                    | None => None
                    end
                | Some (v, String "}" rest) => Some ([(key, v)], rest)
                | _ => None
                end
            | _ => None
            end
          else None
      | EmptyString => None
      end
  end.

Definition parse (text : string) : completion json :=
  match parse_value (S (String.length text)) text with
  | Some (j, EmptyString) => Returned j
  | _ => Thrown "Unexpected token in JSON"
  end.

(** The world is the clock, in milliseconds.  Hosts under [http://up/] answer
    200 after 30 ms, hosts under [http://gone/] answer 404 after 10 ms, and
    no other host can be reached. *)
Definition network (config : AxiosRequestConfig) (w : Z)
  : completion Response * Z :=
  if String.prefix "http://up/" (cfg_url config) then
    (Returned {| resp_status := 200; resp_statusText := "OK";
                 resp_data := JObj [("ok", JBool true)];
                 resp_headers := JObj [] |}, w + 30)
  else if String.prefix "http://gone/" (cfg_url config) then
    (Returned {| resp_status := 404; resp_statusText := "Not Found";
                 resp_data := JNull; resp_headers := JObj [] |}, w + 10)
  else (Thrown "getaddrinfo ENOTFOUND", w + 5).

#[export] Instance runtime : Runtime := {|
  World := Z;
  Date_now := fun w => w;
  toISOString := fun t => pretty t;
  JSON_stringify := stringify;
  JSON_parse := parse;
  transport := network;
  setTimeout := fun d w => w + Z.max 1 d;
  uuidv4 := fun w => ("run-" +:+ pretty w, w);
|}.

(** The engine fails on code that has a [throw] in it, runs out of time on
    [for(;;)], and otherwise gives back the bag bound to [pm]. *)
#[export] Instance engine : Engine := {|
  handle := gmap string json;
  engine_eval := fun _ globals code _ =>
    if contains "throw" code then (Thrown "Uncaught Error", false)
    else if contains "for(;;)" code then (Thrown "Script execution timed out.", false)
    else (Returned (default ∅ (globals !! "pm")), false);
  handle_copy := fun h => Returned h;
|}.

Definition request (id : Z) (url : string) : RequestData.t :=
  {| RequestData.id := id; RequestData.name := "request " +:+ pretty id;
     RequestData.method := "GET"; RequestData.url := url;
     RequestData.headers := None; RequestData.body := None;
     RequestData.params := None |}.

Definition options (mode : ExecutionMode) (delay : option Z)
    (variables : gmap string json) : RunOptions.t :=
  {| RunOptions.executionMode := mode;
     RunOptions.delayBetweenRequests := delay;
     RunOptions.environment := development;
     RunOptions.variables := variables |}.

Definition fresh : Run := {| world := 1000; trace := [] |}.

(** A bag with a value that has no string. *)
Definition poison : gmap string json :=
  <["a" := JObj [("toString", JNull)]]> ∅.
End Sample.

(** ** More about the pattern *)

(** [{{name}}] occurs in [str], [name] being an identifier. *)
Definition occurs (name str : string) : Prop :=
  is_identifier name = true
  /\ exists pre post, str = pre +:+ placeholder name +:+ post.

(** The names the pattern captures in [s], from left to right. *)
Fixpoint placeholder_names (s : string) : list string :=
  match s with
  | EmptyString => []
  | String _ s' =>
      match match_placeholder s with
      | Some (name, _) => name :: placeholder_names s'
      | None => placeholder_names s'
      end
  end.

(** No opening brace in [s]. *)
Fixpoint no_open_brace (s : string) : bool :=
  match s with
  | EmptyString => true
  | String c s' => negb (Ascii.eqb c "{") && no_open_brace s'
  end.

(** ** More about the runner *)

(** [result] is the record [executeRequest] builds for [request] once the URL
    of the request is resolved against the bag. *)
Definition built_for (variables : gmap string json) (request : RequestData.t)
    (result : RequestResult.t) : Prop :=
  exists url timestamp outcome duration,
    replaceVariables (RequestData.url request) variables = Returned url
    /\ result = make_result request url timestamp outcome duration.

(** The promise at a position is that of the request at that position. *)
Definition slot_built (variables : gmap string json) (request : RequestData.t)
    (p : in_flight) : Prop :=
  match p with
  | Rejected _ => False
  | Settled result => built_for variables request result
  | Awaiting _ request' url _ _ =>
      request' = request
      /\ replaceVariables (RequestData.url request) variables = Returned url
  end.

(** A result has a response or an error, as its status says. *)
Definition well_formed (result : RequestResult.t) : Prop :=
  (RequestResult.status result = RequestResult.completed
   /\ is_Some (RequestResult.response result)
   /\ RequestResult.error result = None)
  \/ (RequestResult.status result = RequestResult.failed
      /\ RequestResult.response result = None
      /\ is_Some (RequestResult.error result)).

(** While the calls of a parallel run are answered: the calls started at
    [t0], and no settled call took longer than the time gone by since. *)
Definition on_time (t0 now : Z) (p : in_flight) : Prop :=
  match p with
  | Rejected _ => True
  | Settled result =>
      0 <= RequestResult.duration result <= now - t0
  | Awaiting startTime _ _ _ _ => startTime = t0
  end.

(** The runtime with another timer. *)
Definition with_timer (rt : Runtime) (timer : Z -> World -> World) : Runtime :=
  {| World := World;
     Date_now := Date_now;
     toISOString := toISOString;
     JSON_stringify := JSON_stringify;
     JSON_parse := JSON_parse;
     transport := transport;
     setTimeout := timer;
     uuidv4 := uuidv4 |}.

(** ** The route [POST /api/collections/:collectionId/run]

    The handler reads the collection and its requests from the database and
    hands them to [runCollection].  The two queries are fields of a
    [Database]; they act on the same world as the runner.  The body of the
    request is typed as the route documents it, each field being possibly
    absent; a field that is present is truthy. *)

Module RunBody.
Record t : Type := {
  executionMode : option ExecutionMode;
  delayBetweenRequests : option Z;
  environment : option Environment;
  variables : option (gmap string json);
}.
End RunBody.

Record RunRequest : Type := {
  collectionId : string;           (* req.params.collectionId *)
  workspace_id : option Z;         (* req.user.workspace_id, null without a workspace *)
  body : RunBody.t;
}.

Inductive payload : Type :=
| ErrorPayload (error : string)
| RunPayload (output : RunOutput.t).

(** [res.status(code).json(payload)] *)
Record reply : Type := { status_code : Z; sent : payload }.

Class Database `{rt : Runtime} : Type := {
  (* SELECT id FROM collections WHERE id = $1 AND workspace_id = $2 *)
  select_collection :
    string -> option Z -> World -> completion (list Z) * World;
  (* SELECT id, name, method, url, headers, body, params FROM requests
     WHERE collection_id = $1 ORDER BY created_at ASC *)
  select_requests :
    string -> World -> completion (list RequestData.t) * World;
}.

Section Route.
Context `{db : Database}.

(** The [try] block of the handler. *)
Definition post_collection_run_try (schedule : list nat) (req : RunRequest)
    (run : Run) : completion reply * Run :=
  match RunBody.executionMode (body req), RunBody.environment (body req),
        RunBody.variables (body req) with
  | Some executionMode, Some environment, Some variables =>
      match select_collection (collectionId req) (workspace_id req) (world run) with
      | (Thrown m, w) => (Thrown m, at_world w run)
      | (Returned rows, w) =>
          if (length rows =? 0)%nat then
            (Returned {| status_code := 404;
                         sent := ErrorPayload "Collection not found" |},
             at_world w run)
          else
            match select_requests (collectionId req) w with
            | (Thrown m, w') => (Thrown m, at_world w' run)
            | (Returned requests, w') =>
                match runCollection schedule requests
                        {| RunOptions.executionMode := executionMode;
                           RunOptions.delayBetweenRequests :=
                             RunBody.delayBetweenRequests (body req);
                           RunOptions.environment := environment;
                           RunOptions.variables := variables |}
                        (at_world w' run) with
                | (Thrown m, run') => (Thrown m, run')
                | (Returned runResults, run') =>
                    (Returned {| status_code := 200;
                                 sent := RunPayload runResults |}, run')
                end
            end
      end
  | _, _, _ =>
      (Returned
         {| status_code := 400;
            sent := ErrorPayload
                      "executionMode, environment, and variables are required" |},
       run)
  end.

(** The handler, with its [catch]. *)
Definition post_collection_run (schedule : list nat) (req : RunRequest)
    (run : Run) : reply * Run :=
  match post_collection_run_try schedule req run with
  | (Returned r, run') => (r, run')
  | (Thrown _, run') =>
      ({| status_code := 500; sent := ErrorPayload "Internal server error" |},
       run')
  end.
End Route.

(** A database with one collection, ["1"], in workspace 10. *)
Module SampleServer.
Definition find_collection (id : string) (workspace : option Z) (w : Z)
  : completion (list Z) * Z :=
  if String.eqb id "1" && bool_decide (workspace = Some 10)
  then (Returned [1], w + 2) else (Returned [], w + 2).

Definition find_requests (id : string) (w : Z)
  : completion (list RequestData.t) * Z :=
  (Returned [Sample.request 1 "http://up/{{id}}";
             Sample.request 2 "http://gone/{{id}}"], w + 3).

#[export] Instance database : @Database Sample.runtime :=
  @Build_Database Sample.runtime find_collection find_requests.

Definition request (collection : string) (workspace : option Z)
    (mode : option ExecutionMode) (variables : option (gmap string json))
  : RunRequest :=
  {| collectionId := collection; workspace_id := workspace;
     body := {| RunBody.executionMode := mode;
                RunBody.delayBetweenRequests := None;
                RunBody.environment := Some development;
                RunBody.variables := variables |} |}.
End SampleServer.

(** ** [initDatabase]

    The function sends six statements to the database, one after the other,
    and ends the process with code 1 as soon as one of them fails.  The
    database is the field [pool_query] of a [Pool]; what the function writes
    to the console is left out. *)

Class Pool : Type := {
  Tables : Type;
  pool_query : string -> Tables -> completion unit * Tables;
}.

Definition createUsersTable : string := "
      CREATE TABLE IF NOT EXISTS users (
        id SERIAL PRIMARY KEY,
        email VARCHAR(255) UNIQUE NOT NULL,
        password VARCHAR(255) NOT NULL,
        name VARCHAR(255) NOT NULL,
        created_at TIMESTAMP DEFAULT CURRENT_TIMESTAMP
      );
    ".

Definition createWorkspacesTable : string := "
      CREATE TABLE IF NOT EXISTS workspaces (
        id SERIAL PRIMARY KEY,
        name VARCHAR(255) NOT NULL,
        owner_id INTEGER REFERENCES users(id) ON DELETE CASCADE,
        created_at TIMESTAMP DEFAULT CURRENT_TIMESTAMP
      );
    ".

Definition createWorkspaceMembersTable : string := "
      CREATE TABLE IF NOT EXISTS workspace_members (
        id SERIAL PRIMARY KEY,
        workspace_id INTEGER REFERENCES workspaces(id) ON DELETE CASCADE,
        user_id INTEGER REFERENCES users(id) ON DELETE CASCADE,
        role VARCHAR(50) DEFAULT 'member',
        created_at TIMESTAMP DEFAULT CURRENT_TIMESTAMP,
        UNIQUE(workspace_id, user_id)
      );
    ".

Definition createCollectionsTable : string := "
      CREATE TABLE IF NOT EXISTS collections (
        id SERIAL PRIMARY KEY,
        name VARCHAR(255) NOT NULL,
        description TEXT,
        workspace_id INTEGER REFERENCES workspaces(id) ON DELETE CASCADE,
        created_by INTEGER REFERENCES users(id) ON DELETE CASCADE,
        created_at TIMESTAMP DEFAULT CURRENT_TIMESTAMP,
        updated_at TIMESTAMP DEFAULT CURRENT_TIMESTAMP
      );
    ".

Definition createRequestsTable : string := "
      CREATE TABLE IF NOT EXISTS requests (
        id SERIAL PRIMARY KEY,
        name VARCHAR(255) NOT NULL,
        method VARCHAR(10) NOT NULL DEFAULT 'GET',
        url TEXT NOT NULL,
        headers JSONB DEFAULT '{}',
        body JSONB DEFAULT '{}',
        params JSONB DEFAULT '{}',
        collection_id INTEGER NOT NULL,
        created_by INTEGER REFERENCES users(id) ON DELETE CASCADE,
        created_at TIMESTAMP DEFAULT CURRENT_TIMESTAMP,
        updated_at TIMESTAMP DEFAULT CURRENT_TIMESTAMP,
        CONSTRAINT fk_collection
          FOREIGN KEY(collection_id) 
          REFERENCES collections(id)
          ON DELETE CASCADE
      );
    ".

Definition createVariablesTable : string := "
      CREATE TABLE IF NOT EXISTS variables (
        id SERIAL PRIMARY KEY,
        variable_key VARCHAR(255) NOT NULL,
        value TEXT NOT NULL,
        scope VARCHAR(50) NOT NULL DEFAULT 'workspace',
        workspace_id INTEGER REFERENCES workspaces(id) ON DELETE CASCADE,
        created_at TIMESTAMP DEFAULT CURRENT_TIMESTAMP,
        updated_at TIMESTAMP DEFAULT CURRENT_TIMESTAMP,
        UNIQUE(variable_key, workspace_id, scope)
      );
    ".

(** The statements, in the order in which they are sent. *)
Definition init_statements : list string :=
  [createUsersTable; createWorkspacesTable; createWorkspaceMembersTable; createCollectionsTable; createRequestsTable; createVariablesTable].

Inductive init_outcome : Type :=
| Initialized
| Exited (code : Z).     (* process.exit(code) *)

Section InitDatabase.
Context `{pool : Pool}.

(** [await pool.query(s1); await pool.query(s2); ...] *)
Fixpoint run_queries (statements : list string) (db : Tables)
  : completion unit * Tables :=
  match statements with
  | [] => (Returned tt, db)
  | statement :: rest =>
      match pool_query statement db with
      | (Returned _, db') => run_queries rest db'
      | (Thrown m, db') => (Thrown m, db')
      end
  end.

Definition initDatabase (db : Tables) : init_outcome * Tables :=
  match run_queries init_statements db with
  | (Returned _, db') => (Initialized, db')
  | (Thrown _, db') => (Exited 1, db')
  end.
End InitDatabase.

(** [s.slice(n)] *)
Fixpoint string_drop (n : nat) (s : string) : string :=
  match n, s with
  | S n', String _ s' => string_drop n' s'
  | _, _ => s
  end.

(** The identifiers that follow the occurrences of [keyword] in [s]. *)
Fixpoint names_after (keyword s : string) : list string :=
  match s with
  | EmptyString => []
  | String _ s' =>
      if String.prefix keyword s
      then fst (word_run (string_drop (String.length keyword) s))
           :: names_after keyword s'
      else names_after keyword s'
  end.

(** The table a statement creates, and the tables its foreign keys refer to. *)
Definition created_tables : string -> list string :=
  names_after "CREATE TABLE IF NOT EXISTS ".
Definition referenced_tables : string -> list string :=
  names_after "REFERENCES ".

(** A database that is its list of tables, and in which the table [denied]
    cannot be created. *)
Module SamplePool.
Definition create (denied statement : string) (tables : list string)
  : completion unit * list string :=
  if existsb (String.eqb denied) (created_tables statement)
  then (Thrown ("permission denied for table " +:+ denied), tables)
  else if forallb (fun t => existsb (String.eqb t) tables)
            (referenced_tables statement)
  then (Returned tt,
        tables ++ List.filter (fun t => negb (existsb (String.eqb t) tables))
                    (created_tables statement))
  else (Thrown "relation does not exist", tables).

Definition pool (denied : string) : Pool :=
  {| Tables := list string; pool_query := create denied |}.
End SamplePool.

(** * Properties *)

(** ** Completions *)

Lemma bind_Returned {A B : Type} (a : A) (k : A -> completion B) :
  bind (Returned a) k = k a.
Proof. reflexivity. Qed.

Lemma bind_assoc {A B C : Type} (c : completion A)
    (k : A -> completion B) (h : B -> completion C) :
  bind (bind c k) h = bind c (fun a => bind (k a) h).
Proof. destruct c; reflexivity. Qed.

Lemma bind_ret_r {A : Type} (c : completion A) : bind c Returned = c.
Proof. destruct c; reflexivity. Qed.

(** ** Strings *)

Lemma string_app_assoc (a b c : string) : (a +:+ b) +:+ c = a +:+ b +:+ c.
Proof.
  induction a as [|x a IH]; cbn [String.append]; [reflexivity | f_equal; exact IH].
Qed.

Lemma string_app_nil_r (a : string) : a +:+ "" = a.
Proof.
  induction a as [|x a IH]; cbn [String.append]; [reflexivity | f_equal; exact IH].
Qed.

Lemma string_length_app (a b : string) :
  String.length (a +:+ b) = (String.length a + String.length b)%nat.
Proof.
  induction a as [|x a IH]; cbn [String.append String.length plus];
    [reflexivity | f_equal; exact IH].
Qed.

(** ** The scanner *)

Lemma word_run_spec (s : string) :
  s = fst (word_run s) +:+ snd (word_run s) /\ all_word (fst (word_run s)) = true.
Proof.
  induction s as [|c s [IH1 IH2]]; simpl; [split; reflexivity|].
  destruct (is_word_char c) eqn:Hc.
  - destruct (word_run s) as [w r]; simpl in *.
    rewrite Hc, IH2. split; [now rewrite <- IH1 | reflexivity].
  - simpl. split; reflexivity.
Qed.

Lemma word_run_app_stop (w : string) (c : ascii) (t : string) :
  is_word_char c = false ->
  word_run (w +:+ String c t)
  = (fst (word_run w), snd (word_run w) +:+ String c t).
Proof.
  intros Hc. induction w as [|x w IH]; simpl.
  - now rewrite Hc.
  - destruct (is_word_char x); [|reflexivity].
    rewrite IH. now destruct (word_run w).
Qed.

Lemma word_run_all_word (w : string) :
  all_word w = true -> word_run w = (w, "").
Proof.
  induction w as [|x w IH]; simpl; [reflexivity|].
  intros [Hx Hw]%andb_prop. rewrite Hx, (IH Hw). reflexivity.
Qed.

Lemma match_placeholder_intro (name post : string) :
  is_identifier name = true ->
  match_placeholder (placeholder name +:+ post) = Some (name, post).
Proof.
  intros [Hne Hw]%andb_prop.
  unfold placeholder. rewrite !string_app_assoc. cbn [String.append match_placeholder].
  change (Ascii.eqb "{" "{") with true. cbn [andb].
  change ("}}" +:+ post) with (String "}" (String "}" post)).
  rewrite word_run_app_stop by reflexivity.
  rewrite (word_run_all_word _ Hw). cbn [fst snd String.append].
  destruct name as [|c w]; [discriminate|]. reflexivity.
Qed.

Lemma match_placeholder_elim (s name rest : string) :
  match_placeholder s = Some (name, rest) ->
  is_identifier name = true /\ s = placeholder name +:+ rest.
Proof.
  unfold match_placeholder.
  destruct s as [|a [|b s1]]; try discriminate.
  destruct (Ascii.eqb a "{") eqn:Ha; [|discriminate].
  destruct (Ascii.eqb b "{") eqn:Hb; [|discriminate].
  apply Ascii.eqb_eq in Ha, Hb. subst a b. cbn [andb].
  destruct (word_run_spec s1) as [Hs1 Hw].
  destruct (word_run s1) as [[|c w] [|d [|e r]]]; try discriminate.
  destruct (Ascii.eqb d "}") eqn:Hd; [|discriminate].
  destruct (Ascii.eqb e "}") eqn:He; [|discriminate].
  apply Ascii.eqb_eq in Hd, He. subst d e. cbn [andb].
  intros [= <- <-]. cbn [fst snd] in *. split.
  - unfold is_identifier. now rewrite Hw.
  - unfold placeholder. rewrite !string_app_assoc. cbn [String.append].
    now rewrite Hs1.
Qed.

(** A match never runs across the opening braces of a later occurrence. *)
Lemma match_placeholder_app_open (p t : string) :
  p <> "" ->
  match_placeholder (p +:+ "{{" +:+ t)
  = match match_placeholder p with
    | Some (n, r) => Some (n, r +:+ "{{" +:+ t)
    | None => None
    end.
Proof.
  intros Hp. destruct p as [|a p]; [congruence|]. clear Hp.
  cbn [String.append].
  destruct p as [|b p1].
  - cbn [String.append match_placeholder word_run].
    change (is_word_char "{") with false. cbn iota.
    now destruct (Ascii.eqb a "{" && Ascii.eqb "{" "{").
  - cbn [String.append match_placeholder].
    destruct (Ascii.eqb a "{" && Ascii.eqb b "{"); [|reflexivity].
    rewrite word_run_app_stop by reflexivity.
    destruct (word_run p1) as [[|c w] r]; cbn [fst snd]; [reflexivity|].
    destruct r as [|d [|e r]]; cbn [String.append].
    + reflexivity.
    + change (Ascii.eqb "{" "}") with false. now rewrite andb_false_r.
    + destruct (Ascii.eqb d "}" && Ascii.eqb e "}"); reflexivity.
Qed.

Example replaceVariables_ex1 :
  replaceVariables "{{base}}/users/{{id}}?x={{missing}}"
    (<["base" := JStr "http://h"]> (<["id" := JNum 42]> ∅))
  = Returned "http://h/users/42?x={{missing}}".
Proof. vm_compute. reflexivity. Qed.

Section ReplaceFacts.
Variable callback : string -> string -> jsval.

Lemma replace_global_skip (p t : string) :
  replace_global callback (String.length p) (p +:+ t)
  = replace_global callback 0 t.
Proof. induction p as [|c p IH]; simpl; [reflexivity | exact IH]. Qed.

(** The loop of the global replace, one match or one character at a time. *)
Lemma replace_global_step (s : string) :
  replace_global callback 0 s =
  match s with
  | EmptyString => Returned EmptyString
  | String c s' =>
      match match_placeholder s with
      | Some (name, rest) =>
          let* r := ToString (callback (placeholder name) name) in
          let* t := replace_global callback 0 rest in
          Returned (r +:+ t)
      | None =>
          let* t := replace_global callback 0 s' in
          Returned (String c t)
      end
  end.
Proof.
  destruct s as [|c s']; [reflexivity|].
  cbn [replace_global].
  destruct (match_placeholder (String c s')) as [[name rest]|] eqn:E;
    [|reflexivity].
  apply match_placeholder_elim in E as [_ E].
  unfold placeholder in E. rewrite !string_app_assoc in E.
  cbn [String.append] in E. injection E as -> ->.
  replace (String.length name + 3)%nat
    with (String.length (String "{" (name +:+ "}}"))).
  2:{ cbn [String.length]. rewrite string_length_app. simpl. lia. }
  change (String "{" (name +:+ "}}" +:+ rest))
    with (String "{" (name +:+ "}}" +:+ rest)).
  rewrite <- (replace_global_skip (String "{" (name +:+ "}}")) rest).
  cbn [String.append]. now rewrite string_app_assoc.
Qed.

Lemma replace_global_app_open (p t : string) :
  replace_global callback 0 (p +:+ "{{" +:+ t)
  = let* a := replace_global callback 0 p in
    let* b := replace_global callback 0 ("{{" +:+ t) in
    Returned (a +:+ b).
Proof.
  remember (String.length p) as n eqn:Hn.
  revert p Hn. induction (lt_wf n) as [n _ IH]. intros p Hn.
  destruct p as [|c p'].
  - clear IH Hn. change ("" +:+ "{{" +:+ t) with ("{{" +:+ t).
    change (replace_global callback 0 "") with (@Returned string "").
    rewrite bind_Returned.
    generalize (replace_global callback 0 ("{{" +:+ t)).
    intros [b|m]; reflexivity.
  - rewrite (replace_global_step (String c p' +:+ "{{" +:+ t)).
    rewrite (replace_global_step (String c p')).
    rewrite match_placeholder_app_open by discriminate.
    change (String c p' +:+ "{{" +:+ t) with (String c (p' +:+ "{{" +:+ t)).
    cbv iota.
    destruct (match_placeholder (String c p')) as [[name r]|] eqn:E.
    + apply match_placeholder_elim in E as [_ E].
      assert (Hlt : (String.length r < n)%nat).
      { subst n. rewrite E. unfold placeholder.
        rewrite !string_length_app. simpl. lia. }
      rewrite (IH _ Hlt r eq_refl). clear IH.
      generalize (replace_global callback 0 ("{{" +:+ t)).
      generalize (replace_global callback 0 r).
      generalize (ToString (callback (placeholder name) name)).
      intros [x|m] [y|m'] [z|m'']; try reflexivity.
      cbn [bind]. now rewrite string_app_assoc.
    + assert (Hlt : (String.length p' < n)%nat) by (subst n; simpl; lia).
      rewrite (IH _ Hlt p' eq_refl). clear IH.
      generalize (replace_global callback 0 ("{{" +:+ t)).
      generalize (replace_global callback 0 p').
      intros [y|m'] [z|m'']; reflexivity.
Qed.

Lemma replace_global_occurrence (pre name post : string) :
  is_identifier name = true ->
  replace_global callback 0 (pre +:+ placeholder name +:+ post)
  = let* a := replace_global callback 0 pre in
    let* r := ToString (callback (placeholder name) name) in
    let* b := replace_global callback 0 post in
    Returned (a +:+ r +:+ b).
Proof.
  intros Hid.
  assert (E : placeholder name +:+ post = "{{" +:+ name +:+ "}}" +:+ post).
  { unfold placeholder. now rewrite !string_app_assoc. }
  rewrite E, replace_global_app_open, <- E.
  rewrite (replace_global_step (placeholder name +:+ post)).
  rewrite (match_placeholder_intro _ _ Hid).
  change (placeholder name +:+ post)
    with (String "{" (String "{" ((name +:+ "}}") +:+ post))) at 1.
  cbv iota.
  generalize (replace_global callback 0 post).
  generalize (ToString (callback (placeholder name) name)).
  generalize (replace_global callback 0 pre).
  intros [a|m] [r|m'] [b|m'']; reflexivity.
Qed.
End ReplaceFacts.

(** ** [replaceVariables] *)

Lemma replaceVariables_unfold (str : string) (variables : gmap string json) :
  replaceVariables str variables = replace_global (substitute variables) 0 str.
Proof.
  unfold replaceVariables. destruct (String.eqb_spec str ""); [subst|]; reflexivity.
Qed.

Lemma replaceVariables_split (pre name post : string)
    (variables : gmap string json) :
  is_identifier name = true ->
  replaceVariables (pre +:+ placeholder name +:+ post) variables
  = let* a := replaceVariables pre variables in
    let* r := ToString (substitute variables (placeholder name) name) in
    let* b := replaceVariables post variables in
    Returned (a +:+ r +:+ b).
Proof.
  intros Hid. rewrite !replaceVariables_unfold.
  now apply replace_global_occurrence.
Qed.

Lemma has_placeholder_cons (c : ascii) (s : string) :
  has_placeholder s -> has_placeholder (String c s).
Proof.
  intros (pre & name & post & Hid & ->).
  exists (String c pre), name, post. split; [exact Hid | reflexivity].
Qed.

Lemma match_placeholder_has (s name rest : string) :
  match_placeholder s = Some (name, rest) -> has_placeholder s.
Proof.
  intros [Hid ->]%match_placeholder_elim.
  exists "", name, rest. split; [exact Hid | reflexivity].
Qed.

Lemma has_placeholder_iff (s : string) :
  has_placeholder s <-> contains_placeholder s = true.
Proof.
  split.
  - intros (pre & name & post & Hid & ->).
    induction pre as [|c pre IH].
    + cbn [String.append].
      pose proof (match_placeholder_intro name post Hid) as Hm.
      unfold placeholder in *. cbn [String.append] in *.
      cbn [contains_placeholder]. rewrite Hm.
      rewrite bool_decide_eq_true_2 by eauto. reflexivity.
    + cbn [String.append contains_placeholder]. rewrite IH. apply orb_true_r.
  - induction s as [|c s IH]; cbn [contains_placeholder]; [discriminate|].
    intros [Hm | Hs]%orb_prop.
    + apply bool_decide_eq_true_1 in Hm as [[name rest] Hm].
      eapply match_placeholder_has, Hm.
    + apply has_placeholder_cons, IH, Hs.
Qed.

Lemma replace_global_no_placeholder (callback : string -> string -> jsval)
    (s : string) :
  ~ has_placeholder s -> replace_global callback 0 s = Returned s.
Proof.
  induction s as [|c s IH]; intros Hno; [reflexivity|].
  rewrite replace_global_step.
  destruct (match_placeholder (String c s)) as [[name rest]|] eqn:E.
  - exfalso. eapply Hno, match_placeholder_has, E.
  - rewrite IH; [reflexivity|].
    intros H. apply Hno, has_placeholder_cons, H.
Qed.


(** The strings of the values the callback can return. *)
Lemma substitute_own_truthy (variables : gmap string json) (m name : string)
    (v : json) :
  variables !! name = Some v -> json_truthy v = true ->
  ToString (substitute variables m name) = json_ToString v.
Proof.
  intros Hv Ht. unfold substitute, Get. rewrite Hv. cbn [ToBoolean].
  now rewrite Ht.
Qed.

Lemma substitute_own_falsy (variables : gmap string json) (m name : string)
    (v : json) :
  variables !! name = Some v -> json_truthy v = false ->
  ToString (substitute variables m name) = Returned m.
Proof.
  intros Hv Ht. unfold substitute, Get. rewrite Hv. cbn [ToBoolean].
  now rewrite Ht.
Qed.

Lemma substitute_missing (variables : gmap string json) (m name : string) :
  variables !! name = None -> Object_prototype name = None ->
  ToString (substitute variables m name) = Returned m.
Proof.
  intros Hv Hp. unfold substitute, Get. now rewrite Hv, Hp.
Qed.


Lemma Object_prototype_function (key : string) (v : jsval) :
  Object_prototype key = Some v ->
  ToBoolean v = true /\ exists s, ToString v = Returned s.
Proof.
  unfold Object_prototype.
  destruct (String.eqb key "constructor");
    [|destruct (String.eqb key "__proto__"); [|destruct (existsb _ _)]];
    intros [= <-]; (split; [reflexivity | eexists; reflexivity]).
Qed.

Lemma substitute_printable (variables : gmap string json) (m name : string) :
  printable variables ->
  exists s, ToString (substitute variables m name) = Returned s.
Proof.
  intros Hp. unfold substitute, Get.
  destruct (variables !! name) as [v|] eqn:Hv.
  - cbn [ToBoolean]. destruct (json_truthy v) eqn:Ht.
    + apply (Hp _ _ Hv Ht).
    + eexists; reflexivity.
  - destruct (Object_prototype name) as [v|] eqn:Ho; cbn [from_option id]; cbv zeta.
    + destruct (Object_prototype_function _ _ Ho) as [Ht Hs].
      rewrite Ht. exact Hs.
    + eexists; reflexivity.
Qed.

Lemma replace_global_printable (variables : gmap string json) (s : string) :
  printable variables ->
  exists out, replace_global (substitute variables) 0 s = Returned out.
Proof.
  intros Hp. remember (String.length s) as n eqn:Hn.
  revert s Hn. induction (lt_wf n) as [n _ IH]. intros s Hn.
  rewrite replace_global_step. destruct s as [|c s']; [eexists; reflexivity|].
  destruct (match_placeholder (String c s')) as [[name rest]|] eqn:E.
  - apply match_placeholder_elim in E as [_ E].
    destruct (substitute_printable variables (placeholder name) name Hp)
      as [r ->].
    destruct (IH (String.length rest)) with (s := rest) as [t ->];
      [|reflexivity|eexists; reflexivity].
    subst n. rewrite E. unfold placeholder.
    rewrite !string_length_app. simpl. lia.
  - destruct (IH (String.length s')) with (s := s') as [t ->];
      [subst n; simpl; lia|reflexivity|eexists; reflexivity].
Qed.

(** C1, as stated, fails on the code: a key of the bag whose value is [0] is
    not replaced by ["0"]; a name that is not a key of the bag but is a member
    of [Object.prototype] is not left alone; and a value without a string
    makes the call throw. *)
Lemma replaceVariables_by_membership_counterexample :
  (let variables : gmap string json := <["page" := JNum 0]> ∅ in
   substitute_by_membership variables "{{page}}" "page" = Returned "0"
   /\ replaceVariables "?page={{page}}" variables = Returned "?page={{page}}"
   /\ replaceVariables "?page={{page}}" variables <> Returned "?page=0")
  /\ (let variables : gmap string json := ∅ in
      substitute_by_membership variables "{{constructor}}" "constructor"
      = Returned "{{constructor}}"
      /\ replaceVariables "{{constructor}}" variables
         = Returned "function Object() { [native code] }")
  /\ (let variables : gmap string json :=
        <["a" := JObj [("toString", JNull)]]> ∅ in
      replaceVariables "{{a}}" variables
      = Thrown "Cannot convert object to primitive value").
Proof.
  repeat split; try (vm_compute; reflexivity).
  vm_compute. discriminate.
Qed.

(** C1 (amended): in [pre {{name}} post], with [name] an identifier, the
    occurrence is replaced by the string of the value when [name] is a key of
    the bag with a truthy value; it is left as it is when [name] is a key with
    a falsy value, or is neither a key of the bag nor a member of
    [Object.prototype]; the text before and after is resolved in the same way.
    No error is raised on any input string as long as every truthy value of
    the bag has a string. *)
Theorem replaceVariables_occurrence (pre name post : string)
    (variables : gmap string json) :
  is_identifier name = true ->
  (forall v, variables !! name = Some v -> json_truthy v = true ->
     replaceVariables (pre +:+ placeholder name +:+ post) variables
     = let* a := replaceVariables pre variables in
       let* r := json_ToString v in
       let* b := replaceVariables post variables in
       Returned (a +:+ r +:+ b))
  /\ ((exists v, variables !! name = Some v /\ json_truthy v = false)
      \/ (variables !! name = None /\ Object_prototype name = None) ->
      replaceVariables (pre +:+ placeholder name +:+ post) variables
      = let* a := replaceVariables pre variables in
        let* b := replaceVariables post variables in
        Returned (a +:+ placeholder name +:+ b))
  /\ (printable variables ->
      forall str, exists out, replaceVariables str variables = Returned out).
Proof.
  intros Hid. split; [|split].
  - intros v Hv Ht. rewrite replaceVariables_split by exact Hid.
    now rewrite (substitute_own_truthy _ _ _ _ Hv Ht).
  - intros H. rewrite replaceVariables_split by exact Hid.
    assert (E : ToString (substitute variables (placeholder name) name)
                = Returned (placeholder name)).
    { destruct H as [(v & Hv & Hf) | [Hv Hp]].
      - apply (substitute_own_falsy _ _ _ _ Hv Hf).
      - apply (substitute_missing _ _ _ Hv Hp). }
    rewrite E. destruct (replaceVariables pre variables); reflexivity.
  - intros Hp str. rewrite replaceVariables_unfold.
    now apply replace_global_printable.
Qed.

Lemma replaceVariables_occurrence_witness :
  is_identifier "id" = true
  /\ replaceVariables "/users/{{id}}/posts" (<["id" := JNum 42]> ∅)
     = Returned "/users/42/posts"
  /\ replaceVariables "/users/{{id}}/posts" (<["id" := JStr ""]> ∅)
     = Returned "/users/{{id}}/posts"
  /\ replaceVariables "/users/{{id}}/posts" ∅
     = Returned "/users/{{id}}/posts".
Proof.
  split; [reflexivity|]. split; [|split].
  - destruct (replaceVariables_occurrence "/users/" "id" "/posts"
                (<["id" := JNum 42]> ∅) eq_refl) as (H & _ & _).
    etransitivity; [apply (H (JNum 42)); vm_compute; reflexivity|].
    vm_compute. reflexivity.
  - destruct (replaceVariables_occurrence "/users/" "id" "/posts"
                (<["id" := JStr ""]> ∅) eq_refl) as (_ & H & _).
    etransitivity.
    + apply H. left. exists (JStr ""). split; vm_compute; reflexivity.
    + vm_compute. reflexivity.
  - destruct (replaceVariables_occurrence "/users/" "id" "/posts"
                ∅ eq_refl) as (_ & H & _).
    etransitivity.
    + apply H. right. split; vm_compute; reflexivity.
    + vm_compute. reflexivity.
Defined.

(** C8: on a string with no occurrence of [{{identifier}}], interpolation is
    the identity, whatever the bag. *)
Theorem replaceVariables_no_placeholder (str : string)
    (variables : gmap string json) :
  ~ has_placeholder str -> replaceVariables str variables = Returned str.
Proof.
  intros Hno. rewrite replaceVariables_unfold.
  now apply replace_global_no_placeholder.
Qed.

Lemma replaceVariables_no_placeholder_witness :
  ~ has_placeholder "http://h/{id}/{{}}/{{a b}}/{{x}"
  /\ replaceVariables "http://h/{id}/{{}}/{{a b}}/{{x}"
       (<["id" := JStr "1"]> (<["x" := JStr "2"]> ∅))
     = Returned "http://h/{id}/{{}}/{{a b}}/{{x}".
Proof.
  assert (Hno : ~ has_placeholder "http://h/{id}/{{}}/{{a b}}/{{x}").
  { rewrite has_placeholder_iff. vm_compute. discriminate. }
  split; [exact Hno|].
  apply (replaceVariables_no_placeholder _ _ Hno).
Defined.



(** ** [executeRequest] *)

Section RunnerFacts.
Context `{rt : Runtime}.

(** With [validateStatus: () => true] no status code is turned down. *)
Lemma axios_make_config (request : RequestData.t) (url : string)
    (variables : gmap string json) (config : AxiosRequestConfig) (w : World) :
  make_config request url variables = Returned config ->
  axios config w = transport config w.
Proof.
  unfold make_config, axios. intros H.
  destruct (resolve_json (RequestData.headers request) variables); [|discriminate].
  destruct (resolve_json (RequestData.body request) variables); [|discriminate].
  destruct (resolve_json (RequestData.params request) variables); [|discriminate].
  cbn [bind] in H. injection H as <-. cbn [validateStatus].
  destruct (transport _ w) as [[response|m] w']; reflexivity.
Qed.

Lemma executeRequest_thrown (request : RequestData.t)
    (variables : gmap string json) (w : World) (m : string) :
  replaceVariables (RequestData.url request) variables = Thrown m ->
  executeRequest request variables w = (Thrown m, w).
Proof.
  intros H. unfold executeRequest, executeRequest_begin. now rewrite H.
Qed.

(** Once the URL is resolved, every later failure ends up in the result. *)
Lemma executeRequest_contained (request : RequestData.t)
    (variables : gmap string json) (w : World) (url : string) :
  replaceVariables (RequestData.url request) variables = Returned url ->
  exists result w',
    executeRequest request variables w = (Returned result, w')
    /\ RequestResult.requestId result = RequestData.id request
    /\ RequestResult.url result = url
    /\ RequestResult.duration result = Date_now w' - Date_now w
    /\ match make_config request url variables with
       | Thrown m =>
           w' = w
           /\ RequestResult.status result = RequestResult.failed
           /\ RequestResult.error result = Some m
           /\ RequestResult.response result = None
       | Returned config =>
           match transport config w with
           | (Returned response, w1) =>
               w' = w1
               /\ RequestResult.status result = RequestResult.completed
               /\ RequestResult.response result = Some response
               /\ RequestResult.error result = None
           | (Thrown m, w1) =>
               w' = w1
               /\ RequestResult.status result = RequestResult.failed
               /\ RequestResult.error result = Some m
               /\ RequestResult.response result = None
           end
       end.
Proof.
  intros Hurl. unfold executeRequest, executeRequest_begin. rewrite Hurl.
  destruct (make_config request url variables) as [config|m] eqn:Hc.
  - unfold executeRequest_resume.
    rewrite (axios_make_config _ _ _ _ w Hc).
    destruct (transport config w) as [[response|m] w1];
      do 2 eexists; (split; [reflexivity|]); cbn; repeat split.
  - do 2 eexists. split; [reflexivity|]. cbn. repeat split.
Qed.

Lemma executeRequest_returned (request : RequestData.t)
    (variables : gmap string json) (w w' : World) (result : RequestResult.t) :
  executeRequest request variables w = (Returned result, w') ->
  RequestResult.requestId result = RequestData.id request
  /\ RequestResult.duration result = Date_now w' - Date_now w.
Proof.
  destruct (replaceVariables (RequestData.url request) variables)
    as [url|m] eqn:Hurl.
  - destruct (executeRequest_contained request variables w url Hurl)
      as (r & w1 & -> & Hid & _ & Hd & _).
    intros [= <- <-]. auto.
  - rewrite (executeRequest_thrown _ _ _ _ Hurl). discriminate.
Qed.

(** ** The sequential mode *)

Lemma delay_trace (options : RunOptions.t) (run : Run) :
  trace (delay options run)
  = trace run ++ match RunOptions.delayBetweenRequests options with
                 | Some d => if d =? 0 then [] else [Delayed d]
                 | None => []
                 end.
Proof.
  unfold delay. destruct (RunOptions.delayBetweenRequests options) as [d|];
    [destruct (d =? 0)|]; cbn; now rewrite ?app_nil_r.
Qed.

Lemma run_sequential_returned (requests : list RequestData.t)
    (options : RunOptions.t) :
  forall (run run' : Run) (results : list RequestResult.t),
    run_sequential requests options run = (Returned results, run') ->
    Forall2 (fun request result =>
               RequestResult.requestId result = RequestData.id request)
            requests results
    /\ trace run' = trace run ++ concat (map (steps options) requests).
Proof.
  induction requests as [|request rest IH]; intros run run' results.
  - cbn. intros [= <- <-]. split; [constructor | now rewrite app_nil_r].
  - cbn [run_sequential].
    destruct (executeRequest _ _ _) as [[result|m] w] eqn:He; [|discriminate].
    destruct (run_sequential rest options _) as [[rs|m] run4] eqn:Hr;
      [|discriminate].
    intros [= <- <-].
    apply executeRequest_returned in He as [Hid _].
    apply IH in Hr as [Hall Htr]. split; [constructor; assumption|].
    rewrite Htr, delay_trace. cbn [map concat steps trace log at_world].
    now rewrite <- !app_assoc.
Qed.

Lemma run_sequential_cons_thrown (request : RequestData.t)
    (rest : list RequestData.t) (options : RunOptions.t) (run : Run)
    (m : string) :
  replaceVariables (RequestData.url request) (RunOptions.variables options)
  = Thrown m ->
  fst (run_sequential (request :: rest) options run) = Thrown m.
Proof.
  intros H. cbn [run_sequential].
  now rewrite (executeRequest_thrown _ _ _ _ H).
Qed.

Lemma run_sequential_cons_returned (request : RequestData.t)
    (rest : list RequestData.t) (options : RunOptions.t) (run : Run)
    (url : string) :
  replaceVariables (RequestData.url request) (RunOptions.variables options)
  = Returned url ->
  exists result run1,
    run_sequential (request :: rest) options run
    = match run_sequential rest options run1 with
      | (Returned results, run4) => (Returned (result :: results), run4)
      | (Thrown m, run4) => (Thrown m, run4)
      end.
Proof.
  intros H. cbn [run_sequential].
  destruct (executeRequest_contained request (RunOptions.variables options)
              (world (log (Started (RequestData.id request)) run)) url H)
    as (result & w1 & -> & _).
  eauto.
Qed.

(** With a timer that waits at least as long as it is asked to, the clock
    has advanced by the durations of the requests and one delay for each. *)
Lemma run_sequential_clock (requests : list RequestData.t)
    (options : RunOptions.t) (d : Z) :
  RunOptions.delayBetweenRequests options = Some d ->
  0 < d ->
  (forall w, Date_now w + d <= Date_now (setTimeout d w)) ->
  forall (run run' : Run) (results : list RequestResult.t),
    run_sequential requests options run = (Returned results, run') ->
    Date_now (world run) + total_duration results
      + Z.of_nat (length requests) * d
    <= Date_now (world run').
Proof.
  intros Hd Hpos Htimer.
  induction requests as [|request rest IH]; intros run run' results.
  - cbn. intros [= <- <-]. cbn. lia.
  - cbn [run_sequential].
    destruct (executeRequest _ _ _) as [[result|m] w] eqn:He; [|discriminate].
    destruct (run_sequential rest options _) as [[rs|m] run4] eqn:Hr;
      [|discriminate].
    intros [= <- <-].
    apply executeRequest_returned in He as [_ Hdur].
    apply IH in Hr. revert Hr.
    unfold delay. rewrite Hd.
    destruct (Z.eqb_spec d 0) as [->|_]; [lia|].
    cbn [world log at_world] in *. intros Hr.
    specialize (Htimer w).
    cbn [total_duration foldr length]. fold (total_duration rs).
    lia.
Qed.
End RunnerFacts.

(** ** The parallel mode *)

Section ParallelFacts.
Context `{rt : Runtime}.

Lemma executeRequest_begin_slot (request : RequestData.t)
    (variables : gmap string json) (w : World) :
  (forall m, executeRequest_begin request variables w <> Rejected m) ->
  slot request (executeRequest_begin request variables w).
Proof.
  unfold executeRequest_begin.
  destruct (replaceVariables _ _) as [url|m]; [|intros H; now destruct (H m)].
  intros _. destruct (make_config _ _ _); reflexivity.
Qed.

Lemma begin_all_slots (requests : list RequestData.t)
    (variables : gmap string json) (w : World) :
  rejection (map (fun r => executeRequest_begin r variables w) requests) = None ->
  Forall2 slot requests
    (map (fun r => executeRequest_begin r variables w) requests).
Proof.
  induction requests as [|request rest IH]; cbn [map rejection];
    [constructor|].
  intros H. constructor.
  - apply executeRequest_begin_slot. intros m Hm. rewrite Hm in H. discriminate.
  - apply IH. destruct (executeRequest_begin request variables w);
      [discriminate | exact H | exact H].
Qed.

Lemma executeRequest_resume_id (startTime : Z) (request : RequestData.t)
    (url timestamp : string) (config : AxiosRequestConfig) (w : World) :
  RequestResult.requestId
    (fst (executeRequest_resume startTime request url timestamp config w))
  = RequestData.id request.
Proof.
  unfold executeRequest_resume. now destruct (axios config w).
Qed.

Lemma settle_at_slots (requests : list RequestData.t)
    (st : list in_flight * Run) (k : nat) :
  Forall2 slot requests (fst st) ->
  Forall2 slot requests (fst (settle_at st k)).
Proof.
  intros Hst. unfold settle_at.
  destruct (fst st !! k) as [[m|r|startTime request url timestamp config]|]
    eqn:Hk; try exact Hst.
  pose proof (executeRequest_resume_id startTime request url timestamp config
                (world (snd st))) as Hid.
  destruct (executeRequest_resume _ _ _ _ _ _) as [result w']. cbn [fst] in *.
  apply Forall2_same_length_lookup in Hst as [Hlen Hst].
  apply Forall2_same_length_lookup. split; [now rewrite length_insert|].
  intros i rq p Hrq Hp.
  destruct (decide (i = k)) as [->|Hne].
  - rewrite list_lookup_insert_eq in Hp by (eapply lookup_lt_Some, Hk).
    injection Hp as <-. cbn [slot].
    specialize (Hst _ _ _ Hrq Hk). cbn [slot] in Hst. now subst rq.
  - rewrite list_lookup_insert_ne in Hp by congruence. eauto.
Qed.

(** A call still awaited after a step was awaited before it, and the step
    was for another position. *)
Lemma settle_at_awaiting (st : list in_flight * Run) (k j : nat)
    (p : in_flight) :
  fst (settle_at st k) !! j = Some p -> is_awaiting p = true ->
  fst st !! j = Some p /\ j <> k.
Proof.
  unfold settle_at.
  destruct (fst st !! k) as [[m|r|startTime request url timestamp config]|]
    eqn:Hk.
  1,2,4: intros Hj Hp; split; [exact Hj|]; intros ->;
         rewrite Hk in Hj; by simplify_eq/=.
  destruct (executeRequest_resume _ _ _ _ _ _) as [result w']. cbn [fst].
  intros Hj Hp. destruct (decide (j = k)) as [->|Hne].
  - rewrite list_lookup_insert_eq in Hj by (eapply lookup_lt_Some, Hk).
    injection Hj as <-. discriminate.
  - rewrite list_lookup_insert_ne in Hj by congruence. auto.
Qed.

Lemma settle_fold_slots (requests : list RequestData.t) (ks : list nat) :
  forall st, Forall2 slot requests (fst st) ->
             Forall2 slot requests (fst (fold_left settle_at ks st)).
Proof.
  induction ks as [|k ks IH]; intros st Hst; [exact Hst|].
  cbn [fold_left]. apply IH, settle_at_slots, Hst.
Qed.

Lemma settle_fold_awaiting (ks : list nat) :
  forall st j p,
    fst (fold_left settle_at ks st) !! j = Some p -> is_awaiting p = true ->
    fst st !! j = Some p /\ j ∉ ks.
Proof.
  induction ks as [|k ks IH]; intros st j p Hj Hp.
  - split; [exact Hj | apply not_elem_of_nil].
  - cbn [fold_left] in Hj.
    destruct (IH _ _ _ Hj Hp) as [Hj' Hnot].
    destruct (settle_at_awaiting _ _ _ _ Hj' Hp) as [Hj'' Hne].
    split; [exact Hj''|]. rewrite not_elem_of_cons. auto.
Qed.

(** When the join is over no call is awaited any more. *)
Lemma settle_all_settled (schedule : list nat) (promises : list in_flight)
    (run : Run) (j : nat) (p : in_flight) :
  fst (settle_all schedule promises run) !! j = Some p ->
  is_awaiting p = false.
Proof.
  intros Hj. destruct (is_awaiting p) eqn:Hp; [exfalso|reflexivity].
  unfold settle_all in Hj.
  destruct (settle_fold_awaiting _ _ _ _ Hj Hp) as [Hj' Hnot].
  apply Hnot. rewrite elem_of_app. right.
  apply elem_of_seq. cbn [fst] in Hj'. apply lookup_lt_Some in Hj'. lia.
Qed.

Lemma settled_values_slots (requests : list RequestData.t)
    (promises : list in_flight) :
  Forall2 slot requests promises ->
  (forall j p, promises !! j = Some p -> is_awaiting p = false) ->
  Forall2 (fun request result =>
             RequestResult.requestId result = RequestData.id request)
          requests (settled_values promises).
Proof.
  induction 1 as [|request p requests promises Hp Hall IH]; intros Hno.
  - constructor.
  - pose proof (Hno 0%nat p eq_refl) as Hp0.
    destruct p as [m|result|]; [destruct Hp| |discriminate].
    cbn [settled_values]. constructor; [exact Hp|].
    apply IH. intros j q Hq. apply (Hno (S j) q Hq).
Qed.

Lemma run_parallel_returned (schedule : list nat)
    (requests : list RequestData.t) (options : RunOptions.t)
    (run run' : Run) (results : list RequestResult.t) :
  run_parallel schedule requests options run = (Returned results, run') ->
  Forall2 (fun request result =>
             RequestResult.requestId result = RequestData.id request)
          requests results.
Proof.
  unfold run_parallel.
  set (promises := map _ requests). set (run1 := fold_left _ requests run).
  destruct (rejection promises) eqn:Hrej; [discriminate|].
  destruct (settle_all schedule promises run1) as [settled run2] eqn:Hs.
  intros [= <- <-].
  apply settled_values_slots.
  - change settled with (fst (settled, run2)). rewrite <- Hs.
    unfold settle_all. apply settle_fold_slots. cbn [fst].
    now apply begin_all_slots.
  - intros j p Hj. apply (settle_all_settled schedule promises run1 j).
    now rewrite Hs.
Qed.

(** ** [runCollection] *)

Lemma status_partition (results : list RequestResult.t) :
  (length (filter (fun r => RequestResult.is_completed r = true) results)
   + length (filter (fun r => RequestResult.is_failed r = true) results))%nat
  = length results.
Proof.
  induction results as [|r results IH]; [reflexivity|].
  rewrite !filter_cons.
  destruct (decide (RequestResult.is_completed r = true)) as [Hc|Hc],
           (decide (RequestResult.is_failed r = true)) as [Hf|Hf];
    cbn [length]; try lia; exfalso;
    unfold RequestResult.is_completed, RequestResult.is_failed in *;
    destruct (RequestResult.status r); congruence.
Qed.

Lemma runCollection_returned (schedule : list nat)
    (requests : list RequestData.t) (options : RunOptions.t)
    (run run' : Run) (out : RunOutput.t) :
  runCollection schedule requests options run = (Returned out, run') ->
  Forall2 (fun request result =>
             RequestResult.requestId result = RequestData.id request)
          requests (RunOutput.results out)
  /\ RunSummary.total (RunOutput.summary out) = length requests
  /\ RunSummary.completed (RunOutput.summary out)
     = length (filter (fun r => RequestResult.is_completed r = true)
                 (RunOutput.results out))
  /\ RunSummary.failed (RunOutput.summary out)
     = length (filter (fun r => RequestResult.is_failed r = true)
                 (RunOutput.results out))
  /\ RunOutput.status out
     = (if (0 <? RunSummary.failed (RunOutput.summary out))%nat
        then RunOutput.failed else RunOutput.completed).
Proof.
  unfold runCollection. destruct (uuidv4 (world run)) as [runId w0].
  destruct (match RunOptions.executionMode options with
            | sequential => _ | parallel => _ end)
    as [[results|m] run1] eqn:Hmode; [|discriminate].
  intros [= <- <-]. cbn. repeat split.
  destruct (RunOptions.executionMode options).
  - now apply run_sequential_returned in Hmode as [H _].
  - now apply run_parallel_returned in Hmode.
Qed.

(** Whenever a run returns, its summary and status agree with its results. *)
Lemma runCollection_invariants (schedule : list nat)
    (requests : list RequestData.t) (options : RunOptions.t)
    (run run' : Run) (out : RunOutput.t) :
  runCollection schedule requests options run = (Returned out, run') ->
  let summary := RunOutput.summary out in
  RunSummary.total summary = length requests
  /\ length (RunOutput.results out) = length requests
  /\ (RunSummary.completed summary + RunSummary.failed summary)%nat
     = RunSummary.total summary
  /\ (RunOutput.status out = RunOutput.failed
      <-> (0 < RunSummary.failed summary)%nat).
Proof.
  intros (Hall & Htotal & Hc & Hf & Hs)%runCollection_returned. cbn zeta.
  apply Forall2_length in Hall.
  split; [exact Htotal|]. split; [now rewrite <- Hall|]. split.
  - now rewrite Hc, Hf, status_partition, Htotal, Hall.
  - rewrite Hs. destruct (Nat.ltb_spec 0 (RunSummary.failed (RunOutput.summary out)));
      split; (congruence || lia || auto).
Qed.

(** A run returns as soon as every URL can be resolved: nothing else a
    request does can stop it. *)
Lemma run_sequential_returns (requests : list RequestData.t)
    (options : RunOptions.t) :
  Forall (resolvable (RunOptions.variables options)) requests ->
  forall run, exists results run',
    run_sequential requests options run = (Returned results, run').
Proof.
  induction 1 as [|request rest [url Hurl] _ IH]; intros run.
  - do 2 eexists. reflexivity.
  - destruct (run_sequential_cons_returned request rest options run url Hurl)
      as (result & run1 & ->).
    destruct (IH run1) as (results & run' & ->). eauto.
Qed.

Lemma rejection_resolvable (requests : list RequestData.t)
    (variables : gmap string json) (w : World) :
  Forall (resolvable variables) requests ->
  rejection (map (fun r => executeRequest_begin r variables w) requests) = None.
Proof.
  induction 1 as [|request rest [url Hurl] _ IH]; [reflexivity|].
  cbn [map rejection]. unfold executeRequest_begin at 1. rewrite Hurl.
  destruct (make_config request url variables); exact IH.
Qed.

Lemma runCollection_returns (schedule : list nat)
    (requests : list RequestData.t) (options : RunOptions.t) (run : Run) :
  Forall (resolvable (RunOptions.variables options)) requests ->
  exists out run',
    runCollection schedule requests options run = (Returned out, run').
Proof.
  intros Hall. unfold runCollection.
  destruct (uuidv4 (world run)) as [runId w0].
  destruct (RunOptions.executionMode options).
  - destruct (run_sequential_returns requests options Hall (at_world w0 run))
      as (results & run' & ->). eauto.
  - unfold run_parallel. rewrite (rejection_resolvable _ _ _ Hall).
    destruct (settle_all _ _ _) as [settled run2]. eauto.
Qed.
End ParallelFacts.

(** C2 (the code at the failing input): with a bag that holds a value without
    a string, a placeholder in the URL makes [executeRequest] throw, in any
    runtime, since the URL is resolved before the [try]; the same placeholder
    in a header is caught and reported in the result. *)
Theorem executeRequest_url_error_escapes `{rt : Runtime} (w : World) :
  executeRequest (Sample.request 7 "http://up/{{a}}") Sample.poison w
  = (Thrown "Cannot convert object to primitive value", w)
  /\ exists result,
       executeRequest (rt := Sample.runtime)
         {| RequestData.id := 7; RequestData.name := "request 7";
            RequestData.method := "GET"; RequestData.url := "http://up/";
            RequestData.headers := Some (JObj [("k", JStr "{{a}}")]);
            RequestData.body := None; RequestData.params := None |}
         Sample.poison 1000
       = (Returned result, 1000)
       /\ RequestResult.status result = RequestResult.failed
       /\ RequestResult.error result
          = Some "Cannot convert object to primitive value"
       /\ RequestResult.response result = None.
Proof.
  split.
  - apply executeRequest_thrown. vm_compute. reflexivity.
  - eexists. split; [vm_compute; reflexivity|]. repeat split.
Qed.

(** C3 (the code at the failing input): in either mode and in any runtime, a
    run whose second request has such a URL gives no output at all. *)
Theorem runCollection_url_error_escapes `{rt : Runtime} (schedule : list nat)
    (mode : ExecutionMode) (delay : option Z) (run : Run) :
  fst (runCollection schedule
         [Sample.request 1 "http://up/"; Sample.request 2 "http://up/{{a}}"]
         (Sample.options mode delay Sample.poison) run)
  = Thrown "Cannot convert object to primitive value".
Proof.
  assert (H1 : replaceVariables "http://up/" Sample.poison = Returned "http://up/")
    by (vm_compute; reflexivity).
  assert (H2 : replaceVariables "http://up/{{a}}" Sample.poison
               = Thrown "Cannot convert object to primitive value")
    by (vm_compute; reflexivity).
  unfold runCollection. destruct (uuidv4 (world run)) as [runId w0].
  destruct mode; cbn [Sample.options RunOptions.executionMode].
  - destruct (run_sequential_cons_returned (Sample.request 1 "http://up/")
                [Sample.request 2 "http://up/{{a}}"]
                (Sample.options sequential delay Sample.poison)
                (at_world w0 run) _ H1) as (result & run1 & ->).
    pose proof (run_sequential_cons_thrown (Sample.request 2 "http://up/{{a}}")
                  [] (Sample.options sequential delay Sample.poison)
                  run1 _ H2) as Hthrown.
    destruct (run_sequential _ _ run1) as [[results|m] run4];
      cbn [fst] in Hthrown; [discriminate|].
    injection Hthrown as ->. reflexivity.
  - unfold run_parallel, executeRequest_begin.
    cbn [map Sample.options RunOptions.variables Sample.request RequestData.url].
    rewrite H1, H2.
    destruct (make_config _ _ _); reflexivity.
Qed.

(** C4: in both modes, and in the parallel mode whatever the order in which
    the calls are answered, a run that returns has one result for each
    template, and the result at each position carries the id of the template
    at that position. *)
Theorem runCollection_results_in_input_order `{rt : Runtime}
    (schedule : list nat) (requests : list RequestData.t)
    (options : RunOptions.t) (run run' : Run) (out : RunOutput.t) :
  runCollection schedule requests options run = (Returned out, run') ->
  length (RunOutput.results out) = length requests
  /\ forall i request,
       requests !! i = Some request ->
       exists result,
         RunOutput.results out !! i = Some result
         /\ RequestResult.requestId result = RequestData.id request.
Proof.
  intros (Hall & _)%runCollection_returned. split.
  - symmetry. eapply Forall2_length, Hall.
  - intros i request Hi.
    destruct (Forall2_lookup_l _ _ _ _ _ Hall Hi) as (result & Hr & Hid).
    eauto.
Qed.

Lemma runCollection_results_in_input_order_witness :
  let requests :=
    [Sample.request 1 "http://up/a"; Sample.request 2 "http://gone/b";
     Sample.request 3 "http://nowhere/c"] in
  exists out run',
    runCollection (rt := Sample.runtime) [2; 0]%nat requests
      (Sample.options parallel None ∅) Sample.fresh = (Returned out, run')
    /\ trace run'
       = [Started 1; Started 2; Started 3; Finished 3; Finished 1; Finished 2]
    /\ length (RunOutput.results out) = length requests
    /\ forall i request,
         requests !! i = Some request ->
         exists result,
           RunOutput.results out !! i = Some result
           /\ RequestResult.requestId result = RequestData.id request.
Proof.
  intros requests.
  eassert (E : runCollection (rt := Sample.runtime) [2; 0]%nat requests
                 (Sample.options parallel None ∅) Sample.fresh
               = (Returned _, _))
    by (vm_compute; reflexivity).
  eexists _, _. split; [exact E|]. split; [reflexivity|].
  exact (runCollection_results_in_input_order (rt := Sample.runtime)
           _ _ _ _ _ _ E).
Defined.

(** C7: in the sequential mode with a delay [d > 0], and a timer that waits
    at least as long as it is asked to, a run that returns has taken the
    requests one after the other in input order, each followed by the delay,
    the last one too; its [totalDuration] is at least the sum of the
    durations of the requests plus one delay for each of them, hence, for
    three templates and [d = 100], at least that sum plus [2 * 100]. *)
Theorem runCollection_sequential_delays `{rt : Runtime}
    (schedule : list nat) (requests : list RequestData.t)
    (options : RunOptions.t) (d : Z) (run run' : Run) (out : RunOutput.t) :
  RunOptions.executionMode options = sequential ->
  RunOptions.delayBetweenRequests options = Some d ->
  0 < d ->
  (forall w, Date_now w + d <= Date_now (setTimeout d w)) ->
  runCollection schedule requests options run = (Returned out, run') ->
  trace run'
  = trace run
    ++ concat (map (fun request =>
                      [Started (RequestData.id request);
                       Finished (RequestData.id request);
                       Delayed d]) requests)
  /\ total_duration (RunOutput.results out) + Z.of_nat (length requests) * d
     <= RunSummary.totalDuration (RunOutput.summary out)
  /\ (length requests = 3%nat -> d = 100 ->
      total_duration (RunOutput.results out) + 2 * 100
      <= RunSummary.totalDuration (RunOutput.summary out)).
Proof.
  intros Hmode Hd Hpos Htimer. unfold runCollection.
  destruct (uuidv4 (world run)) as [runId w0]. rewrite Hmode.
  destruct (run_sequential requests options (at_world w0 run))
    as [[results|m] run1] eqn:Hrun; [|discriminate].
  intros [= <- <-]. cbn [RunOutput.results RunOutput.summary
                         RunSummary.totalDuration].
  pose proof (run_sequential_clock requests options d Hd Hpos Htimer _ _ _ Hrun)
    as Hclock.
  apply run_sequential_returned in Hrun as [_ Htrace].
  cbn [world at_world trace] in *.
  assert (Hsteps : map (steps options) requests
                   = map (fun request =>
                            [Started (RequestData.id request);
                             Finished (RequestData.id request);
                             Delayed d]) requests).
  { apply map_ext. intros request. unfold steps. rewrite Hd.
    destruct (Z.eqb_spec d 0); [lia | reflexivity]. }
  rewrite <- Hsteps. split; [exact Htrace|]. split; [lia|].
  intros Hn ->. rewrite Hn in Hclock. lia.
Qed.

Lemma runCollection_sequential_delays_witness :
  let requests :=
    [Sample.request 1 "http://up/a"; Sample.request 2 "http://gone/b";
     Sample.request 3 "http://nowhere/c"] in
  let options := Sample.options sequential (Some 100) ∅ in
  exists out run',
    runCollection (rt := Sample.runtime) [] requests options Sample.fresh
    = (Returned out, run')
    /\ trace run'
       = [Started 1; Finished 1; Delayed 100; Started 2; Finished 2;
          Delayed 100; Started 3; Finished 3; Delayed 100]
    /\ total_duration (RunOutput.results out) + 3 * 100
       <= RunSummary.totalDuration (RunOutput.summary out)
    /\ total_duration (RunOutput.results out) + 2 * 100
       <= RunSummary.totalDuration (RunOutput.summary out).
Proof.
  intros requests options.
  eassert (E : runCollection (rt := Sample.runtime) [] requests options
                 Sample.fresh = (Returned _, _))
    by (vm_compute; reflexivity).
  eexists _, _. split; [exact E|].
  assert (Htimer : forall w : @World Sample.runtime,
             Date_now w + 100 <= Date_now (setTimeout 100 w)).
  { intros w. cbn. lia. }
  destruct (runCollection_sequential_delays (rt := Sample.runtime)
              [] requests options 100 Sample.fresh _ _
              eq_refl eq_refl eq_refl Htimer E) as (Ht & Hd & H3).
  split; [exact Ht|]. split; [exact Hd|]. apply H3; reflexivity.
Defined.

(** ** [runScript] *)

Section SandboxFacts.
Context `{engine : Engine}.

Lemma alter_last {A : Type} (f : A -> A) (l : list A) (x : A) :
  alter f (length l) (l ++ [x]) = l ++ [f x].
Proof.
  rewrite alter_app_r_alt by lia. now rewrite Nat.sub_diag.
Qed.

Lemma isolate_lookup_last (isolates : list Isolate.t) (i : Isolate.t) :
  isolate_lookup (length isolates) (isolates ++ [i]) = i.
Proof.
  unfold isolate_lookup. now rewrite list_lookup_middle.
Qed.

(** A call with a script makes one isolate, evaluates the wrapped script in
    it with [pm] as the only binding, and leaves the isolate disposed of,
    whether the engine did so itself or not; the call never throws. *)
Lemma runScript_script (script : string) (variables : gmap string json)
    (isolates : list Isolate.t) :
  script <> "" ->
  runScript (Some script) variables isolates
  = (Returned
       (answer variables
          (let* result :=
             fst (engine_eval 128 (<["pm" := variables]> ∅)
                    (wrap_script script) 1000) in
           handle_copy result)),
     isolates ++ [spent_isolate variables]).
Proof.
  intros Hne. destruct script as [|c s]; [congruence|].
  unfold runScript, Context_eval.
  rewrite alter_last, isolate_lookup_last.
  cbn [Isolate.set Isolate.create Isolate.memoryLimit Isolate.global].
  destruct (engine_eval 128 (<["pm" := variables]> ∅)
              (wrap_script (String c s)) 1000) as [evaluated died].
  cbn [fst]. destruct died.
  - rewrite alter_last, isolate_lookup_last. reflexivity.
  - rewrite isolate_lookup_last. cbn [Isolate.isDisposed negb].
    unfold Isolate_dispose. rewrite isolate_lookup_last.
    cbn [Isolate.isDisposed]. rewrite alter_last. reflexivity.
Qed.

End SandboxFacts.

(** C9: with no script, or the empty script, the input bag comes back as it
    is, with no error, and the sandbox is not touched. *)
Theorem runScript_without_script `{engine : Engine}
    (variables : gmap string json) (isolates : list Isolate.t) :
  runScript None variables isolates
  = (Returned {| ScriptRunResult.variables := variables;
                 ScriptRunResult.error := None |}, isolates)
  /\ runScript (Some "") variables isolates
     = (Returned {| ScriptRunResult.variables := variables;
                    ScriptRunResult.error := None |}, isolates).
Proof. split; reflexivity. Qed.





(** * More properties of the code *)

(** ** Interpolation *)

Lemma occurs_head (s name rest : string) :
  match_placeholder s = Some (name, rest) -> occurs name s.
Proof.
  intros [Hid ->]%match_placeholder_elim.
  split; [exact Hid|]. exists "", rest. reflexivity.
Qed.

Lemma occurs_cons (c : ascii) (s name : string) :
  occurs name s -> occurs name (String c s).
Proof.
  intros [Hid (pre & post & ->)]. split; [exact Hid|].
  exists (String c pre), post. reflexivity.
Qed.

Lemma occurs_after (s name0 rest name : string) :
  match_placeholder s = Some (name0, rest) -> occurs name rest -> occurs name s.
Proof.
  intros [_ ->]%match_placeholder_elim [Hid (pre & post & ->)].
  split; [exact Hid|]. exists (placeholder name0 +:+ pre), post.
  now rewrite string_app_assoc.
Qed.

Lemma occurs_iff (name s : string) :
  occurs name s <-> name ∈ placeholder_names s.
Proof.
  split.
  - intros [Hid (pre & post & ->)].
    induction pre as [|c pre IH].
    + pose proof (match_placeholder_intro name post Hid) as Hm.
      unfold placeholder in *. cbn [String.append] in *.
      cbn [placeholder_names]. rewrite Hm. apply elem_of_cons. now left.
    + cbn [String.append placeholder_names].
      destruct (match_placeholder _) as [[n r]|];
        [apply elem_of_cons; right|]; exact IH.
  - induction s as [|c s IH]; cbn [placeholder_names].
    + intros H. now apply elem_of_nil in H.
    + destruct (match_placeholder (String c s)) as [[n r]|] eqn:E.
      * intros [->|H]%elem_of_cons.
        -- eapply occurs_head, E.
        -- apply occurs_cons, IH, H.
      * intros H. apply occurs_cons, IH, H.
Qed.

Lemma replace_global_agree (f g : string -> string -> jsval) (s : string) :
  (forall name, occurs name s -> f (placeholder name) name = g (placeholder name) name) ->
  replace_global f 0 s = replace_global g 0 s.
Proof.
  remember (String.length s) as n eqn:Hn.
  revert s Hn. induction (lt_wf n) as [n _ IH]. intros s Hn Hfg.
  rewrite (replace_global_step f), (replace_global_step g).
  destruct s as [|c s']; [reflexivity|].
  destruct (match_placeholder (String c s')) as [[name rest]|] eqn:E.
  - rewrite (Hfg name (occurs_head _ _ _ E)).
    rewrite (IH (String.length rest)) with (s := rest); [reflexivity| |reflexivity|].
    + apply match_placeholder_elim in E as [_ E]. subst n. rewrite E.
      unfold placeholder. rewrite !string_length_app. simpl. lia.
    + intros name' H. apply Hfg. eapply occurs_after; eassumption.
  - rewrite (IH (String.length s')) with (s := s'); [reflexivity| |reflexivity|].
    + subst n. simpl. lia.
    + intros name' H. apply Hfg, occurs_cons, H.
Qed.

(** X1: the output depends on the bag only through the names that occur in
    the string: two bags that agree on them give the same output. *)
Theorem replaceVariables_agree (str : string)
    (variables variables' : gmap string json) :
  (forall name, occurs name str -> variables !! name = variables' !! name) ->
  replaceVariables str variables = replaceVariables str variables'.
Proof.
  intros H. rewrite !replaceVariables_unfold.
  apply replace_global_agree. intros name Ho.
  unfold substitute, Get. now rewrite (H name Ho).
Qed.

Lemma replaceVariables_agree_witness :
  (forall name, occurs name "{{host}}/users/{{id}}" ->
     (<["host" := JStr "h"]> (<["id" := JNum 7]> (<["token" := JStr "t"]> ∅))
        : gmap string json) !! name
     = (<["host" := JStr "h"]> (<["id" := JNum 7]> ∅) : gmap string json) !! name)
  /\ replaceVariables "{{host}}/users/{{id}}"
       (<["host" := JStr "h"]> (<["id" := JNum 7]> (<["token" := JStr "t"]> ∅)))
     = replaceVariables "{{host}}/users/{{id}}"
         (<["host" := JStr "h"]> (<["id" := JNum 7]> ∅)).
Proof.
  assert (H : forall name, occurs name "{{host}}/users/{{id}}" ->
     (<["host" := JStr "h"]> (<["id" := JNum 7]> (<["token" := JStr "t"]> ∅))
        : gmap string json) !! name
     = (<["host" := JStr "h"]> (<["id" := JNum 7]> ∅) : gmap string json) !! name).
  { intros name Ho%occurs_iff.
    vm_compute placeholder_names in Ho.
    apply elem_of_cons in Ho as [->|Ho]; [vm_compute; reflexivity|].
    apply elem_of_cons in Ho as [->|Ho]; [vm_compute; reflexivity|].
    now apply elem_of_nil in Ho. }
  split; [exact H|]. apply (replaceVariables_agree _ _ _ H).
Defined.

Lemma match_placeholder_no_open (c : ascii) (s : string) :
  Ascii.eqb c "{" = false -> match_placeholder (String c s) = None.
Proof.
  intros Hc. unfold match_placeholder. destruct s; [reflexivity|].
  now rewrite Hc.
Qed.

(** X2: text without an opening brace is copied as it is, and does not
    change how the text after it is resolved. *)
Theorem replaceVariables_plain_prefix (plain rest : string)
    (variables : gmap string json) :
  no_open_brace plain = true ->
  replaceVariables (plain +:+ rest) variables
  = let* t := replaceVariables rest variables in Returned (plain +:+ t).
Proof.
  intros Hplain. rewrite !replaceVariables_unfold.
  induction plain as [|c plain IH].
  - cbn [String.append]. now destruct (replace_global _ 0 rest).
  - cbn [no_open_brace] in Hplain.
    apply andb_prop in Hplain as [Hc%negb_true_iff Hplain].
    cbn [String.append]. rewrite replace_global_step.
    rewrite (match_placeholder_no_open _ _ Hc), (IH Hplain).
    now destruct (replace_global _ 0 rest).
Qed.

Lemma replaceVariables_plain_prefix_witness :
  no_open_brace "https://api.example.com/v1/" = true
  /\ replaceVariables "https://api.example.com/v1/{{id}}" (<["id" := JNum 7]> ∅)
     = Returned "https://api.example.com/v1/7".
Proof.
  split; [reflexivity|].
  etransitivity;
    [apply (replaceVariables_plain_prefix "https://api.example.com/v1/" "{{id}}");
     reflexivity|].
  vm_compute. reflexivity.
Defined.

Lemma Object_prototype_string (key : string) (v : jsval) :
  Object_prototype key = Some v ->
  exists c s, ToString v = Returned (String c s) /\ c <> "{"%char.
Proof.
  unfold Object_prototype.
  destruct (String.eqb key "constructor");
    [|destruct (String.eqb key "__proto__"); [|destruct (existsb _ _)]];
    intros [= <-]; cbn [ToString]; do 2 eexists; (split; [reflexivity|]);
    discriminate.
Qed.

(** X3: a placeholder whose name is not a key of the bag but is a member of
    [Object.prototype] ([constructor], [toString], [valueOf], ...) is not left
    in place: it is replaced by the string of the inherited member. *)
Theorem replaceVariables_inherited_name (pre name post : string)
    (variables : gmap string json) (v : jsval) :
  is_identifier name = true ->
  variables !! name = None ->
  Object_prototype name = Some v ->
  exists s,
    ToString v = Returned s
    /\ s <> placeholder name
    /\ replaceVariables (pre +:+ placeholder name +:+ post) variables
       = let* a := replaceVariables pre variables in
         let* b := replaceVariables post variables in
         Returned (a +:+ s +:+ b).
Proof.
  intros Hid Hv Hp.
  destruct (Object_prototype_string _ _ Hp) as (c & s & Hs & Hc).
  destruct (Object_prototype_function _ _ Hp) as [Ht _].
  exists (String c s). split; [exact Hs|]. split.
  - unfold placeholder. cbn [String.append]. congruence.
  - rewrite replaceVariables_split by exact Hid.
    unfold substitute, Get. rewrite Hv, Hp. cbn [from_option id].
    rewrite Ht, Hs. now destruct (replaceVariables pre variables).
Qed.

Lemma replaceVariables_inherited_name_witness :
  is_identifier "valueOf" = true
  /\ (∅ : gmap string json) !! "valueOf" = None
  /\ replaceVariables "x={{valueOf}};" ∅
     = Returned "x=function valueOf() { [native code] };".
Proof.
  split; [reflexivity|]. split; [apply lookup_empty|].
  destruct (replaceVariables_inherited_name "x=" "valueOf" ";" ∅
              (VFunction "valueOf") eq_refl (lookup_empty _) eq_refl)
    as (s & Hs & _ & H).
  injection Hs as <-.
  etransitivity; [exact H|]. vm_compute. reflexivity.
Defined.

(** X4: when a placeholder names a key of the bag whose value is an object
    with an own [toString] property, the call throws a TypeError as soon as
    the text before the placeholder has been resolved. *)
Theorem replaceVariables_unprintable_value (pre name post : string)
    (variables : gmap string json) (props : list (string * json))
    (before : string) :
  is_identifier name = true ->
  variables !! name = Some (JObj props) ->
  has_own "toString" props = true ->
  replaceVariables pre variables = Returned before ->
  replaceVariables (pre +:+ placeholder name +:+ post) variables
  = Thrown "Cannot convert object to primitive value".
Proof.
  intros Hid Hv Hown Hpre.
  rewrite replaceVariables_split by exact Hid.
  rewrite Hpre. cbn [bind].
  rewrite (substitute_own_truthy _ _ _ _ Hv eq_refl).
  cbn [json_ToString]. now rewrite Hown.
Qed.

Lemma replaceVariables_unprintable_value_witness :
  let variables : gmap string json :=
    <["user" := JObj [("name", JStr "ann"); ("toString", JStr "ann")]]> ∅ in
  is_identifier "user" = true
  /\ variables !! "user"
     = Some (JObj [("name", JStr "ann"); ("toString", JStr "ann")])
  /\ replaceVariables "/u/{{user}}" variables
     = Thrown "Cannot convert object to primitive value".
Proof.
  intros variables. split; [reflexivity|].
  assert (Hv : variables !! "user"
               = Some (JObj [("name", JStr "ann"); ("toString", JStr "ann")]))
    by (vm_compute; reflexivity).
  split; [exact Hv|].
  apply (replaceVariables_unprintable_value "/u/" "user" "" variables
           _ "/u/" eq_refl Hv eq_refl).
  vm_compute. reflexivity.
Defined.

(** ** [executeRequest] *)

(** X5: once the URL is resolved, [executeRequest] returns a result for the
    request: failed, with the message and without a network call, when the
    headers, the body or the params cannot be resolved and parsed; completed,
    with the response, whatever its status code, when the network answers;
    failed, with the message, when the network fails.  The network is called
    at most once. *)
Theorem executeRequest_outcome `{rt : Runtime} (request : RequestData.t)
    (variables : gmap string json) (w : World) (url : string) :
  replaceVariables (RequestData.url request) variables = Returned url ->
  exists result w',
    executeRequest request variables w = (Returned result, w')
    /\ RequestResult.requestId result = RequestData.id request
    /\ RequestResult.url result = url
    /\ RequestResult.duration result = Date_now w' - Date_now w
    /\ match make_config request url variables with
       | Thrown m =>
           w' = w
           /\ RequestResult.status result = RequestResult.failed
           /\ RequestResult.error result = Some m
           /\ RequestResult.response result = None
       | Returned config =>
           match transport config w with
           | (Returned response, w1) =>
               w' = w1
               /\ RequestResult.status result = RequestResult.completed
               /\ RequestResult.response result = Some response
               /\ RequestResult.error result = None
           | (Thrown m, w1) =>
               w' = w1
               /\ RequestResult.status result = RequestResult.failed
               /\ RequestResult.error result = Some m
               /\ RequestResult.response result = None
           end
       end.
Proof. apply executeRequest_contained. Qed.

Lemma executeRequest_outcome_witness :
  exists result,
    executeRequest (rt := Sample.runtime) (Sample.request 2 "http://gone/{{id}}")
      (<["id" := JNum 9]> ∅) 1000
    = (Returned result, 1010)
    /\ RequestResult.url result = "http://gone/9"
    /\ RequestResult.status result = RequestResult.completed
    /\ (resp_status <$> RequestResult.response result) = Some 404.
Proof.
  destruct (executeRequest_outcome (rt := Sample.runtime)
              (Sample.request 2 "http://gone/{{id}}") (<["id" := JNum 9]> ∅)
              1000 "http://gone/9")
    as (result & w' & Hrun & _ & Hurl & _ & Hcase).
  { vm_compute. reflexivity. }
  vm_compute in Hcase. destruct Hcase as (-> & Hs & Hr & _).
  exists result. split; [exact Hrun|]. split; [exact Hurl|].
  split; [exact Hs|].
  change (RequestResult.response result)
    with (match result with
          | {| RequestResult.response := response |} => response
          end).
  rewrite Hr. reflexivity.
Defined.

(** X6: the only exception that leaves [executeRequest] is a failure to
    resolve the URL; nothing has been sent when it is thrown. *)
Theorem executeRequest_throws_iff `{rt : Runtime} (request : RequestData.t)
    (variables : gmap string json) (w : World) (m : string) :
  (fst (executeRequest request variables w) = Thrown m
   <-> replaceVariables (RequestData.url request) variables = Thrown m)
  /\ (fst (executeRequest request variables w) = Thrown m ->
      snd (executeRequest request variables w) = w).
Proof.
  destruct (replaceVariables (RequestData.url request) variables)
    as [url|m'] eqn:Hurl.
  - destruct (executeRequest_contained request variables w url Hurl)
      as (result & w' & -> & _).
    cbn [fst]. split; [split|]; discriminate.
  - rewrite (executeRequest_thrown _ _ _ _ Hurl). cbn [fst snd].
    split; [split|]; congruence.
Qed.

(** ** [runCollection] *)

Section MoreRunnerFacts.
Context `{rt : Runtime}.

Lemma executeRequest_built (request : RequestData.t)
    (variables : gmap string json) (w w' : World) (result : RequestResult.t) :
  executeRequest request variables w = (Returned result, w') ->
  built_for variables request result.
Proof.
  unfold executeRequest, executeRequest_begin, built_for.
  destruct (replaceVariables _ _) as [url|m]; [|discriminate].
  destruct (make_config _ _ _) as [config|m].
  - unfold executeRequest_resume. destruct (axios config w) as [outcome w1].
    intros [= <- <-]. eauto 10.
  - intros [= <- <-]. eauto 10.
Qed.

Lemma run_sequential_built (requests : list RequestData.t)
    (options : RunOptions.t) :
  forall (run run' : Run) (results : list RequestResult.t),
    run_sequential requests options run = (Returned results, run') ->
    Forall2 (built_for (RunOptions.variables options)) requests results.
Proof.
  induction requests as [|request rest IH]; intros run run' results.
  - cbn. intros [= <- <-]. constructor.
  - cbn [run_sequential].
    destruct (executeRequest _ _ _) as [[result|m] w] eqn:He; [|discriminate].
    destruct (run_sequential rest options _) as [[rs|m] run4] eqn:Hr;
      [|discriminate].
    intros [= <- <-]. constructor.
    + eapply executeRequest_built, He.
    + eapply IH, Hr.
Qed.

Lemma executeRequest_begin_built (request : RequestData.t)
    (variables : gmap string json) (w : World) :
  (forall m, executeRequest_begin request variables w <> Rejected m) ->
  slot_built variables request (executeRequest_begin request variables w).
Proof.
  unfold executeRequest_begin.
  destruct (replaceVariables _ _) as [url|m] eqn:Hurl;
    [|intros H; now destruct (H m)].
  intros _. destruct (make_config _ _ _); cbn [slot_built]; [auto|].
  unfold built_for. eauto 10.
Qed.

Lemma begin_all_built (requests : list RequestData.t)
    (variables : gmap string json) (w : World) :
  rejection (map (fun r => executeRequest_begin r variables w) requests) = None ->
  Forall2 (slot_built variables) requests
    (map (fun r => executeRequest_begin r variables w) requests).
Proof.
  induction requests as [|request rest IH]; cbn [map rejection];
    [constructor|].
  intros H. constructor.
  - apply executeRequest_begin_built. intros m Hm. rewrite Hm in H. discriminate.
  - apply IH. destruct (executeRequest_begin request variables w);
      [discriminate | exact H | exact H].
Qed.

Lemma settle_at_built (variables : gmap string json)
    (requests : list RequestData.t) (st : list in_flight * Run) (k : nat) :
  Forall2 (slot_built variables) requests (fst st) ->
  Forall2 (slot_built variables) requests (fst (settle_at st k)).
Proof.
  intros Hst. unfold settle_at.
  destruct (fst st !! k) as [[m|r|startTime request url timestamp config]|]
    eqn:Hk; try exact Hst.
  unfold executeRequest_resume.
  destruct (axios config (world (snd st))) as [outcome w']. cbn [fst].
  apply Forall2_same_length_lookup in Hst as [Hlen Hst].
  apply Forall2_same_length_lookup. split; [now rewrite length_insert|].
  intros i rq p Hrq Hp.
  destruct (decide (i = k)) as [->|Hne].
  - rewrite list_lookup_insert_eq in Hp by (eapply lookup_lt_Some, Hk).
    injection Hp as <-. cbn [slot_built].
    destruct (Hst _ _ _ Hrq Hk) as [-> Hurl]. unfold built_for. eauto 10.
  - rewrite list_lookup_insert_ne in Hp by congruence. eauto.
Qed.

Lemma settle_fold_built (variables : gmap string json)
    (requests : list RequestData.t) (ks : list nat) :
  forall st, Forall2 (slot_built variables) requests (fst st) ->
             Forall2 (slot_built variables) requests
               (fst (fold_left settle_at ks st)).
Proof.
  induction ks as [|k ks IH]; intros st Hst; [exact Hst|].
  cbn [fold_left]. apply IH, settle_at_built, Hst.
Qed.

Lemma settled_values_built (variables : gmap string json)
    (requests : list RequestData.t) (promises : list in_flight) :
  Forall2 (slot_built variables) requests promises ->
  (forall j p, promises !! j = Some p -> is_awaiting p = false) ->
  Forall2 (built_for variables) requests (settled_values promises).
Proof.
  induction 1 as [|request p requests promises Hp Hall IH]; intros Hno.
  - constructor.
  - pose proof (Hno 0%nat p eq_refl) as Hp0.
    destruct p as [m|result|]; [destruct Hp| |discriminate].
    cbn [settled_values]. constructor; [exact Hp|].
    apply IH. intros j q Hq. apply (Hno (S j) q Hq).
Qed.

Lemma runCollection_built (schedule : list nat)
    (requests : list RequestData.t) (options : RunOptions.t)
    (run run' : Run) (out : RunOutput.t) :
  runCollection schedule requests options run = (Returned out, run') ->
  Forall2 (built_for (RunOptions.variables options)) requests
    (RunOutput.results out).
Proof.
  unfold runCollection. destruct (uuidv4 (world run)) as [runId w0].
  destruct (RunOptions.executionMode options).
  - destruct (run_sequential requests options _) as [[results|m] run1] eqn:Hr;
      [|discriminate].
    intros [= <- <-]. cbn [RunOutput.results].
    eapply run_sequential_built, Hr.
  - unfold run_parallel.
    set (promises := map _ requests). set (run1 := fold_left _ requests _).
    destruct (rejection promises) eqn:Hrej; [discriminate|].
    destruct (settle_all schedule promises run1) as [settled run2] eqn:Hs.
    intros [= <- <-]. cbn [RunOutput.results].
    apply settled_values_built.
    + change settled with (fst (settled, run2)). rewrite <- Hs.
      unfold settle_all. apply settle_fold_built. cbn [fst].
      now apply begin_all_built.
    + intros j p Hj. apply (settle_all_settled schedule promises run1 j).
      now rewrite Hs.
Qed.

Lemma built_for_well_formed (variables : gmap string json)
    (request : RequestData.t) (result : RequestResult.t) :
  built_for variables request result -> well_formed result.
Proof.
  intros (url & timestamp & [response|m] & duration & _ & ->);
    [left | right]; cbn; eauto.
Qed.

(** The first request whose URL cannot be resolved stops the run. *)
Lemma run_sequential_first_failure (before after : list RequestData.t)
    (request : RequestData.t) (options : RunOptions.t) (m : string) :
  Forall (resolvable (RunOptions.variables options)) before ->
  replaceVariables (RequestData.url request) (RunOptions.variables options)
  = Thrown m ->
  forall run,
    fst (run_sequential (before ++ request :: after) options run) = Thrown m.
Proof.
  intros Hbefore Hm.
  induction Hbefore as [|first before [url Hurl] _ IH]; intros run.
  - now apply run_sequential_cons_thrown.
  - cbn [app].
    destruct (run_sequential_cons_returned first (before ++ request :: after)
                options run url Hurl) as (result & run1 & ->).
    specialize (IH run1).
    destruct (run_sequential _ _ run1) as [[results|m'] run4];
      cbn [fst] in *; congruence.
Qed.

Lemma rejection_first_failure (before after : list RequestData.t)
    (request : RequestData.t) (variables : gmap string json) (w : World)
    (m : string) :
  Forall (resolvable variables) before ->
  replaceVariables (RequestData.url request) variables = Thrown m ->
  rejection (map (fun r => executeRequest_begin r variables w)
               (before ++ request :: after)) = Some m.
Proof.
  intros Hbefore Hm.
  induction Hbefore as [|first before [url Hurl] _ IH]; cbn [app map rejection].
  - unfold executeRequest_begin at 1. now rewrite Hm.
  - unfold executeRequest_begin at 1. rewrite Hurl.
    destruct (make_config first url variables); exact IH.
Qed.

Lemma resolvable_or_split (variables : gmap string json)
    (requests : list RequestData.t) :
  Forall (resolvable variables) requests
  \/ exists before request after m,
       requests = before ++ request :: after
       /\ Forall (resolvable variables) before
       /\ replaceVariables (RequestData.url request) variables = Thrown m.
Proof.
  induction requests as [|request rest IH]; [left; constructor|].
  destruct (replaceVariables (RequestData.url request) variables)
    as [url|m] eqn:Hurl.
  - destruct IH as [Hall | (before & r & after & m & -> & Hb & Hm)].
    + left. constructor; [now exists url | exact Hall].
    + right. exists (request :: before), r, after, m.
      split; [reflexivity|]. split; [|exact Hm].
      constructor; [now exists url | exact Hb].
  - right. exists [], request, rest, m.
    split; [reflexivity|]. split; [constructor | exact Hurl].
Qed.

Lemma runCollection_first_failure (schedule : list nat)
    (before after : list RequestData.t) (request : RequestData.t)
    (options : RunOptions.t) (run : Run) (m : string) :
  Forall (resolvable (RunOptions.variables options)) before ->
  replaceVariables (RequestData.url request) (RunOptions.variables options)
  = Thrown m ->
  fst (runCollection schedule (before ++ request :: after) options run)
  = Thrown m.
Proof.
  intros Hbefore Hm. unfold runCollection.
  destruct (uuidv4 (world run)) as [runId w0].
  destruct (RunOptions.executionMode options).
  - pose proof (run_sequential_first_failure before after request options m
                  Hbefore Hm (at_world w0 run)) as H.
    destruct (run_sequential _ _ _) as [[results|m'] run1];
      cbn [fst] in H; [discriminate|]. injection H as ->. reflexivity.
  - unfold run_parallel.
    now rewrite (rejection_first_failure before after request _ _ m Hbefore Hm).
Qed.

(** *** Durations *)

Lemma axios_world (config : AxiosRequestConfig) (w : World) :
  snd (axios config w) = snd (transport config w).
Proof.
  unfold axios. destruct (transport config w) as [[response|m] w'];
    [destruct (validateStatus _ _)|]; reflexivity.
Qed.

Section Clock.
Hypothesis network_clock :
  forall config w, Date_now w <= Date_now (snd (transport config w)).
Hypothesis timer_clock :
  forall d w, Date_now w <= Date_now (setTimeout d w).

Lemma executeRequest_resume_clock (startTime : Z) (request : RequestData.t)
    (url timestamp : string) (config : AxiosRequestConfig) (w : World) :
  let rw := executeRequest_resume startTime request url timestamp config w in
  Date_now w <= Date_now (snd rw)
  /\ RequestResult.duration (fst rw) = Date_now (snd rw) - startTime.
Proof.
  unfold executeRequest_resume.
  pose proof (network_clock config w) as H. rewrite <- axios_world in H.
  destruct (axios config w) as [outcome w']. cbn in *. auto.
Qed.

Lemma executeRequest_clock (request : RequestData.t)
    (variables : gmap string json) (w w' : World) (result : RequestResult.t) :
  executeRequest request variables w = (Returned result, w') ->
  Date_now w <= Date_now w'.
Proof.
  unfold executeRequest.
  destruct (executeRequest_begin request variables w)
    as [m|r|startTime rq url timestamp config]; [discriminate| |].
  - intros [= <- <-]. lia.
  - pose proof (executeRequest_resume_clock startTime rq url timestamp config w)
      as [H _].
    destruct (executeRequest_resume _ _ _ _ _ _) as [r w1].
    intros [= <- <-]. exact H.
Qed.

Lemma delay_clock (options : RunOptions.t) (run : Run) :
  Date_now (world run) <= Date_now (world (delay options run)).
Proof.
  unfold delay. destruct (RunOptions.delayBetweenRequests options) as [d|];
    [destruct (d =? 0)|]; cbn [world log at_world]; try lia.
  apply timer_clock.
Qed.

Lemma run_sequential_durations (requests : list RequestData.t)
    (options : RunOptions.t) :
  forall (run run' : Run) (results : list RequestResult.t),
    run_sequential requests options run = (Returned results, run') ->
    Date_now (world run) <= Date_now (world run')
    /\ Forall (fun r => 0 <= RequestResult.duration r
                        <= Date_now (world run') - Date_now (world run))
         results.
Proof.
  induction requests as [|request rest IH]; intros run run' results.
  - cbn. intros [= <- <-]. split; [lia | constructor].
  - cbn [run_sequential].
    destruct (executeRequest _ _ _) as [[result|m] w] eqn:He; [|discriminate].
    destruct (run_sequential rest options _) as [[rs|m] run4] eqn:Hr;
      [|discriminate].
    intros [= <- <-].
    pose proof (executeRequest_clock _ _ _ _ _ He) as Hw.
    apply executeRequest_returned in He as [_ Hd].
    pose proof (delay_clock options
                  (log (Finished (RequestData.id request))
                     (at_world w (log (Started (RequestData.id request)) run))))
      as Hdelay.
    apply IH in Hr as [Hrest Hall].
    cbn [world log at_world] in *.
    split; [lia|]. constructor; [lia|].
    eapply Forall_impl; [exact Hall|]. cbn beta. intros r Hr. lia.
Qed.

Lemma settle_at_on_time (t0 : Z) (st : list in_flight * Run) (k : nat) :
  t0 <= Date_now (world (snd st)) ->
  Forall (on_time t0 (Date_now (world (snd st)))) (fst st) ->
  let st' := settle_at st k in
  t0 <= Date_now (world (snd st'))
  /\ Forall (on_time t0 (Date_now (world (snd st')))) (fst st').
Proof.
  intros Ht Hall. unfold settle_at.
  destruct (fst st !! k) as [[m|r|startTime request url timestamp config]|]
    eqn:Hk; try (split; assumption).
  pose proof (executeRequest_resume_clock startTime request url timestamp
                config (world (snd st))) as [Hw Hd].
  destruct (executeRequest_resume _ _ _ _ _ _) as [result w'].
  cbn [fst snd world log at_world] in *.
  assert (Hst : startTime = t0).
  { eapply Forall_lookup_1 in Hall; [|exact Hk]. exact Hall. }
  subst startTime. split; [lia|].
  apply Forall_insert.
  - eapply Forall_impl; [exact Hall|].
    intros [m|r|s rq u ts c]; cbn [on_time]; [auto|lia|auto].
  - cbn [on_time]. lia.
Qed.

Lemma settle_fold_on_time (t0 : Z) (ks : list nat) :
  forall st,
    t0 <= Date_now (world (snd st)) ->
    Forall (on_time t0 (Date_now (world (snd st)))) (fst st) ->
    let st' := fold_left settle_at ks st in
    t0 <= Date_now (world (snd st'))
    /\ Forall (on_time t0 (Date_now (world (snd st')))) (fst st').
Proof.
  induction ks as [|k ks IH]; intros st Ht Hall; [split; assumption|].
  cbn [fold_left].
  destruct (settle_at_on_time t0 st k Ht Hall) as [Ht' Hall'].
  apply IH; assumption.
Qed.

Lemma begin_all_on_time (requests : list RequestData.t)
    (variables : gmap string json) (w : World) :
  Forall (on_time (Date_now w) (Date_now w))
    (map (fun r => executeRequest_begin r variables w) requests).
Proof.
  apply Forall_fmap, Forall_forall. intros request _. cbn.
  unfold executeRequest_begin.
  destruct (replaceVariables _ _); [|exact I].
  destruct (make_config _ _ _); cbn; [reflexivity | lia].
Qed.

Lemma settled_values_on_time (t0 now : Z) (promises : list in_flight) :
  Forall (on_time t0 now) promises ->
  Forall (fun r => 0 <= RequestResult.duration r <= now - t0)
    (settled_values promises).
Proof.
  induction 1 as [|p promises Hp _ IH]; [constructor|].
  destruct p; cbn [settled_values]; [exact IH | constructor; assumption | exact IH].
Qed.

Lemma started_world (variables : gmap string json)
    (requests : list RequestData.t) (w : World) :
  forall run : Run,
    world (fold_left
             (fun r request =>
                let r1 := log (Started (RequestData.id request)) r in
                match executeRequest_begin request variables w with
                | Settled _ => log (Finished (RequestData.id request)) r1
                | _ => r1
                end) requests run)
    = world run.
Proof.
  induction requests as [|request rest IH]; intros run; [reflexivity|].
  cbn [fold_left]. rewrite IH.
  now destruct (executeRequest_begin request variables w).
Qed.

Lemma runCollection_durations (schedule : list nat)
    (requests : list RequestData.t) (options : RunOptions.t)
    (run run' : Run) (out : RunOutput.t) :
  runCollection schedule requests options run = (Returned out, run') ->
  Forall (fun r => 0 <= RequestResult.duration r
                     <= RunSummary.totalDuration (RunOutput.summary out))
    (RunOutput.results out).
Proof.
  unfold runCollection. destruct (uuidv4 (world run)) as [runId w0].
  destruct (RunOptions.executionMode options).
  - destruct (run_sequential requests options _) as [[results|m] run1] eqn:Hr;
      [|discriminate].
    intros [= <- <-]. cbn.
    now apply run_sequential_durations in Hr as [_ H].
  - unfold run_parallel.
    set (promises := map _ requests). set (run1 := fold_left _ requests _).
    destruct (rejection promises); [discriminate|].
    destruct (settle_all schedule promises run1) as [settled run2] eqn:Hs.
    intros [= <- <-]. cbn.
    assert (Hw : world run1 = w0).
    { subst run1. now rewrite started_world. }
    destruct (settle_fold_on_time (Date_now w0)
                (schedule ++ seq 0 (length promises)) (promises, run1))
      as [_ H].
    + cbn [snd]. rewrite Hw. lia.
    + cbn [fst snd]. rewrite Hw. apply begin_all_on_time.
    + unfold settle_all in Hs. rewrite Hs in H. cbn [fst snd] in H.
      now apply settled_values_on_time.
Qed.
End Clock.
End MoreRunnerFacts.

Lemma no_failed_all_completed (results : list RequestResult.t) :
  length (filter (fun r => RequestResult.is_failed r = true) results) = 0%nat
  <-> Forall (fun r => RequestResult.status r = RequestResult.completed) results.
Proof.
  induction results as [|r results IH]; [split; [constructor | reflexivity]|].
  rewrite filter_cons, Forall_cons.
  destruct (decide (RequestResult.is_failed r = true)) as [Hf|Hf];
    unfold RequestResult.is_failed in Hf;
    destruct (RequestResult.status r) eqn:Hs; try congruence.
  - cbn [length]. split; [discriminate | intros [H _]; discriminate].
  - rewrite IH. tauto.
Qed.

(** X7: for every run that returns: [total] is the number of templates and of
    results; [completed + failed = total]; the status is [failed] exactly when
    a result failed, [completed] exactly when every result completed, and
    never [running]. *)
Theorem runCollection_summary `{rt : Runtime} (schedule : list nat)
    (requests : list RequestData.t) (options : RunOptions.t)
    (run run' : Run) (out : RunOutput.t) :
  runCollection schedule requests options run = (Returned out, run') ->
  RunSummary.total (RunOutput.summary out) = length requests
  /\ length (RunOutput.results out) = length requests
  /\ (RunSummary.completed (RunOutput.summary out)
      + RunSummary.failed (RunOutput.summary out))%nat
     = RunSummary.total (RunOutput.summary out)
  /\ (RunOutput.status out = RunOutput.failed
      <-> (0 < RunSummary.failed (RunOutput.summary out))%nat)
  /\ (RunOutput.status out = RunOutput.completed
      <-> Forall (fun r => RequestResult.status r = RequestResult.completed)
            (RunOutput.results out))
  /\ RunOutput.status out <> RunOutput.running.
Proof.
  intros Hrun.
  destruct (runCollection_invariants _ _ _ _ _ _ Hrun) as (Ht & Hl & Hsum & Hf).
  destruct (runCollection_returned _ _ _ _ _ _ Hrun) as (_ & _ & _ & Hfc & Hs).
  split; [exact Ht|]. split; [exact Hl|]. split; [exact Hsum|].
  split; [exact Hf|]. split.
  - rewrite <- no_failed_all_completed, <- Hfc, Hs.
    destruct (Nat.ltb_spec 0 (RunSummary.failed (RunOutput.summary out)));
      split; (congruence || lia).
  - rewrite Hs. now destruct (_ <? _)%nat.
Qed.

Lemma runCollection_summary_witness :
  exists out run',
    runCollection (rt := Sample.runtime) [1]%nat
      [Sample.request 1 "http://up/a"; Sample.request 2 "http://nowhere/"]
      (Sample.options parallel None ∅) Sample.fresh = (Returned out, run')
    /\ RunSummary.total (RunOutput.summary out) = 2%nat
    /\ RunSummary.completed (RunOutput.summary out) = 1%nat
    /\ RunSummary.failed (RunOutput.summary out) = 1%nat
    /\ RunOutput.status out = RunOutput.failed.
Proof.
  eassert (E : runCollection (rt := Sample.runtime) [1]%nat
                 [Sample.request 1 "http://up/a"; Sample.request 2 "http://nowhere/"]
                 (Sample.options parallel None ∅) Sample.fresh
               = (Returned _, _))
    by (vm_compute; reflexivity).
  eexists _, _. split; [exact E|].
  destruct (runCollection_summary (rt := Sample.runtime) _ _ _ _ _ _ E)
    as (Ht & _ & _ & Hf & _).
  split; [exact Ht|]. split; [reflexivity|]. split; [reflexivity|].
  apply Hf. cbn. lia.
Defined.

(** X8: a run returns exactly when the URL of every template can be resolved
    against the bag; nothing else a request does can stop a run. *)
Theorem runCollection_returns_iff `{rt : Runtime} (schedule : list nat)
    (requests : list RequestData.t) (options : RunOptions.t) (run : Run) :
  (exists out run',
     runCollection schedule requests options run = (Returned out, run'))
  <-> Forall (resolvable (RunOptions.variables options)) requests.
Proof.
  split; [|apply runCollection_returns].
  intros (out & run' & Hrun).
  destruct (resolvable_or_split (RunOptions.variables options) requests)
    as [Hall | (before & request & after & m & -> & Hb & Hm)]; [exact Hall|].
  pose proof (runCollection_first_failure schedule before after request
                options run m Hb Hm) as H.
  rewrite Hrun in H. discriminate.
Qed.

(** X9: when the URL of a template cannot be resolved and those of the
    templates before it can, the run throws the error of that template, in
    both modes: no output is produced, whatever the other requests did. *)
Theorem runCollection_first_unresolved `{rt : Runtime} (schedule : list nat)
    (before after : list RequestData.t) (request : RequestData.t)
    (options : RunOptions.t) (run : Run) (m : string) :
  Forall (resolvable (RunOptions.variables options)) before ->
  replaceVariables (RequestData.url request) (RunOptions.variables options)
  = Thrown m ->
  fst (runCollection schedule (before ++ request :: after) options run)
  = Thrown m.
Proof. apply runCollection_first_failure. Qed.

Lemma runCollection_first_unresolved_witness :
  let variables : gmap string json :=
    <["id" := JNum 7]> (<["user" := JObj [("toString", JStr "ann")]]> ∅) in
  fst (runCollection (rt := Sample.runtime) []
         ([Sample.request 1 "http://up/{{id}}"]
          ++ Sample.request 2 "http://up/{{user}}"
          :: [Sample.request 3 "http://up/"])
         (Sample.options sequential None variables) Sample.fresh)
  = Thrown "Cannot convert object to primitive value".
Proof.
  intros variables.
  apply (runCollection_first_unresolved (rt := Sample.runtime)).
  - repeat constructor. exists "http://up/7". vm_compute. reflexivity.
  - vm_compute. reflexivity.
Defined.

(** X10: in a run that returns, the result at each position describes the
    template at that position: its id, name and method, and its URL resolved
    against the bag of the run. *)
Theorem runCollection_results_describe `{rt : Runtime} (schedule : list nat)
    (requests : list RequestData.t) (options : RunOptions.t)
    (run run' : Run) (out : RunOutput.t) :
  runCollection schedule requests options run = (Returned out, run') ->
  forall i request,
    requests !! i = Some request ->
    exists result,
      RunOutput.results out !! i = Some result
      /\ RequestResult.requestId result = RequestData.id request
      /\ RequestResult.name result = RequestData.name request
      /\ RequestResult.method result = RequestData.method request
      /\ Returned (RequestResult.url result)
         = replaceVariables (RequestData.url request)
             (RunOptions.variables options).
Proof.
  intros Hall%runCollection_built i request Hi.
  destruct (Forall2_lookup_l _ _ _ _ _ Hall Hi)
    as (result & Hr & url & ts & outcome & d & Hurl & ->).
  exists (make_result request url ts outcome d).
  split; [exact Hr|]. cbn. now rewrite Hurl.
Qed.

Lemma runCollection_results_describe_witness :
  exists out run' result,
    runCollection (rt := Sample.runtime) [1; 0]%nat
      [Sample.request 1 "http://up/{{id}}"; Sample.request 2 "http://gone/{{id}}"]
      (Sample.options parallel None (<["id" := JNum 7]> ∅)) Sample.fresh
    = (Returned out, run')
    /\ RunOutput.results out !! 1%nat = Some result
    /\ RequestResult.requestId result = 2
    /\ RequestResult.url result = "http://gone/7".
Proof.
  eassert (E : runCollection (rt := Sample.runtime) [1; 0]%nat
                 [Sample.request 1 "http://up/{{id}}";
                  Sample.request 2 "http://gone/{{id}}"]
                 (Sample.options parallel None (<["id" := JNum 7]> ∅))
                 Sample.fresh = (Returned _, _))
    by (vm_compute; reflexivity).
  destruct (runCollection_results_describe (rt := Sample.runtime)
              _ _ _ _ _ _ E 1%nat (Sample.request 2 "http://gone/{{id}}")
              eq_refl) as (result & Hr & Hid & _ & _ & Hurl).
  eexists _, _, result. split; [exact E|]. split; [exact Hr|].
  split; [exact Hid|].
  vm_compute in Hurl. now injection Hurl.
Defined.

(** X11: every result of a run that returns has a response and no error when
    its status is [completed], an error and no response when it is
    [failed]. *)
Theorem runCollection_results_well_formed `{rt : Runtime}
    (schedule : list nat) (requests : list RequestData.t)
    (options : RunOptions.t) (run run' : Run) (out : RunOutput.t) :
  runCollection schedule requests options run = (Returned out, run') ->
  Forall well_formed (RunOutput.results out).
Proof.
  intros Hall%runCollection_built.
  apply Forall_forall. intros result Hin.
  apply list_elem_of_lookup in Hin as [i Hi].
  destruct (Forall2_lookup_r _ _ _ _ _ Hall Hi) as (request & _ & Hb).
  eapply built_for_well_formed, Hb.
Qed.

Lemma runCollection_results_well_formed_witness :
  exists out run',
    runCollection (rt := Sample.runtime) []
      [Sample.request 1 "http://up/a"; Sample.request 2 "http://nowhere/"]
      (Sample.options sequential None ∅) Sample.fresh = (Returned out, run')
    /\ Forall well_formed (RunOutput.results out).
Proof.
  eassert (E : runCollection (rt := Sample.runtime) []
                 [Sample.request 1 "http://up/a"; Sample.request 2 "http://nowhere/"]
                 (Sample.options sequential None ∅) Sample.fresh
               = (Returned _, _))
    by (vm_compute; reflexivity).
  eexists _, _. split; [exact E|].
  exact (runCollection_results_well_formed (rt := Sample.runtime)
           _ _ _ _ _ _ E).
Defined.

(** X12: with a clock that the network and the timer never move backwards,
    no request of a run lasted longer than the run: every [duration] is
    between 0 and [totalDuration], in both modes. *)
Theorem runCollection_durations_bounded `{rt : Runtime}
    (schedule : list nat) (requests : list RequestData.t)
    (options : RunOptions.t) (run run' : Run) (out : RunOutput.t) :
  (forall config w, Date_now w <= Date_now (snd (transport config w))) ->
  (forall d w, Date_now w <= Date_now (setTimeout d w)) ->
  runCollection schedule requests options run = (Returned out, run') ->
  Forall (fun r => 0 <= RequestResult.duration r
                     <= RunSummary.totalDuration (RunOutput.summary out))
    (RunOutput.results out).
Proof.
  intros Hnet Htimer. now apply runCollection_durations.
Qed.

Lemma runCollection_durations_bounded_witness :
  exists out run',
    runCollection (rt := Sample.runtime) [2; 0]%nat
      [Sample.request 1 "http://up/a"; Sample.request 2 "http://gone/b";
       Sample.request 3 "http://nowhere/c"]
      (Sample.options parallel None ∅) Sample.fresh = (Returned out, run')
    /\ Forall (fun r => 0 <= RequestResult.duration r
                          <= RunSummary.totalDuration (RunOutput.summary out))
         (RunOutput.results out).
Proof.
  eassert (E : runCollection (rt := Sample.runtime) [2; 0]%nat
                 [Sample.request 1 "http://up/a"; Sample.request 2 "http://gone/b";
                  Sample.request 3 "http://nowhere/c"]
                 (Sample.options parallel None ∅) Sample.fresh
               = (Returned _, _))
    by (vm_compute; reflexivity).
  eexists _, _. split; [exact E|].
  apply (runCollection_durations_bounded (rt := Sample.runtime)
           _ _ _ _ _ _) with (3 := E).
  - intros config w. cbn. unfold Sample.network.
    destruct (String.prefix _ _); [|destruct (String.prefix _ _)]; cbn; lia.
  - intros d w. cbn. lia.
Defined.

Lemma run_sequential_timer `{rt : Runtime} (timer : Z -> World -> World)
    (requests : list RequestData.t) (options : RunOptions.t) :
  RunOptions.delayBetweenRequests options = None
  \/ RunOptions.delayBetweenRequests options = Some 0 ->
  forall run : Run,
    run_sequential (rt := with_timer rt timer) requests options run
    = run_sequential (rt := rt) requests options run.
Proof.
  intros Hd. induction requests as [|request rest IH]; intros run;
    [reflexivity|].
  cbn [run_sequential].
  change (executeRequest (rt := with_timer rt timer))
    with (executeRequest (rt := rt)).
  destruct (executeRequest request _ _) as [[result|m] w]; [|reflexivity].
  assert (Hdelay : forall r : Run,
             delay (rt := with_timer rt timer) options r
             = delay (rt := rt) options r).
  { intros r. unfold delay. now destruct Hd as [-> | ->]. }
  rewrite Hdelay. now rewrite IH.
Qed.

(** X13: in the parallel mode, and in the sequential mode when
    [delayBetweenRequests] is absent or 0, the timer is not used: the run is
    the same whatever [setTimeout] does. *)
Theorem runCollection_timer_unused `{rt : Runtime}
    (timer : Z -> World -> World) (schedule : list nat)
    (requests : list RequestData.t) (options : RunOptions.t) (run : Run) :
  RunOptions.executionMode options = parallel
  \/ RunOptions.delayBetweenRequests options = None
  \/ RunOptions.delayBetweenRequests options = Some 0 ->
  runCollection (rt := with_timer rt timer) schedule requests options run
  = runCollection (rt := rt) schedule requests options run.
Proof.
  intros H. unfold runCollection.
  change (uuidv4 (Runtime := with_timer rt timer)) with (uuidv4 (Runtime := rt)).
  change (@world (@World (with_timer rt timer))) with (@world (@World rt)).
  change (@at_world (with_timer rt timer)) with (@at_world rt).
  destruct (uuidv4 (world run)) as [runId w0].
  destruct (RunOptions.executionMode options) eqn:Hmode.
  - destruct H as [H|H]; [discriminate|].
    now rewrite (run_sequential_timer timer requests options H).
  - reflexivity.
Qed.

Lemma runCollection_timer_unused_witness :
  let requests := [Sample.request 1 "http://up/a"; Sample.request 2 "http://gone/b"] in
  let options := Sample.options sequential (Some 0) ∅ in
  runCollection (rt := with_timer Sample.runtime (fun _ w => w + 60000)) []
    requests options Sample.fresh
  = runCollection (rt := Sample.runtime) [] requests options Sample.fresh.
Proof.
  intros requests options.
  apply (runCollection_timer_unused (rt := Sample.runtime)).
  right. right. reflexivity.
Defined.

Lemma settle_all_nil `{rt : Runtime} (schedule : list nat) (run : Run) :
  settle_all schedule [] run = ([], run).
Proof.
  unfold settle_all. cbn [length seq]. rewrite app_nil_r.
  induction schedule as [|k ks IH]; [reflexivity|].
  cbn [fold_left]. exact IH.
Qed.

(** X14: a run over no template returns a completed output with no result
    and all counts 0, in both modes, and logs nothing. *)
Theorem runCollection_empty `{rt : Runtime} (schedule : list nat)
    (options : RunOptions.t) (run : Run) :
  exists out run',
    runCollection schedule [] options run = (Returned out, run')
    /\ RunOutput.status out = RunOutput.completed
    /\ RunOutput.results out = []
    /\ RunSummary.total (RunOutput.summary out) = 0%nat
    /\ RunSummary.completed (RunOutput.summary out) = 0%nat
    /\ RunSummary.failed (RunOutput.summary out) = 0%nat
    /\ trace run' = trace run.
Proof.
  unfold runCollection. destruct (uuidv4 (world run)) as [runId w0].
  destruct (RunOptions.executionMode options).
  - cbn. do 2 eexists. split; [reflexivity|]. cbn. repeat split.
  - unfold run_parallel. cbn [map rejection fold_left].
    rewrite settle_all_nil. cbn.
    do 2 eexists. split; [reflexivity|]. cbn. repeat split.
Qed.

(** ** [runScript] *)

(** X15: [runScript] never throws, whatever the script and whatever the
    engine does with it, also when the engine itself disposed of the isolate;
    and an answer that carries an error carries the input bag. *)
Theorem runScript_never_throws `{engine : Engine} (script : option string)
    (variables : gmap string json) (isolates : list Isolate.t) :
  exists answered isolates',
    runScript script variables isolates = (Returned answered, isolates')
    /\ (is_Some (ScriptRunResult.error answered) ->
        ScriptRunResult.variables answered = variables).
Proof.
  destruct script as [[|c s]|].
  - do 2 eexists. split; [reflexivity|]. reflexivity.
  - rewrite runScript_script by discriminate.
    do 2 eexists. split; [reflexivity|].
    destruct (let* result := _ in handle_copy result) as [bag|m];
      cbn [answer ScriptRunResult.error ScriptRunResult.variables].
    + intros [m Hm]. discriminate.
    + reflexivity.
  - do 2 eexists. split; [reflexivity|]. reflexivity.
Qed.

(** X16: a call leaves the isolates of earlier calls as they were and adds at
    most one, which it leaves disposed of; so, if no isolate was live before
    the call, none is live after it. *)
Theorem runScript_isolates `{engine : Engine} (script : option string)
    (variables : gmap string json) (isolates : list Isolate.t) :
  let isolates' := snd (runScript script variables isolates) in
  (isolates' = isolates
   \/ exists isolate,
        isolates' = isolates ++ [isolate]
        /\ Isolate.isDisposed isolate = true
        /\ Isolate.memoryLimit isolate = 128)
  /\ (Forall (fun i => Isolate.isDisposed i = true) isolates ->
      Forall (fun i => Isolate.isDisposed i = true) isolates').
Proof.
  destruct script as [[|c s]|]; cbn zeta.
  - split; [now left | auto].
  - rewrite runScript_script by discriminate. cbn [snd]. split.
    + right. eexists. split; [reflexivity|]. split; reflexivity.
    + intros Hall. apply Forall_app. split; [exact Hall|].
      repeat constructor.
  - split; [now left | auto].
Qed.

(** ** The route that runs a collection *)

Section RouteFacts.
Context `{db : Database}.

Lemma post_collection_run_ok (schedule : list nat) (req : RunRequest)
    (run run' : Run) (r : reply) :
  post_collection_run schedule req run = (r, run') ->
  status_code r = 200 ->
  exists executionMode environment variables rows w requests w' out,
    RunBody.executionMode (body req) = Some executionMode
    /\ RunBody.environment (body req) = Some environment
    /\ RunBody.variables (body req) = Some variables
    /\ select_collection (collectionId req) (workspace_id req) (world run)
       = (Returned rows, w)
    /\ rows <> []
    /\ select_requests (collectionId req) w = (Returned requests, w')
    /\ runCollection schedule requests
         {| RunOptions.executionMode := executionMode;
            RunOptions.delayBetweenRequests :=
              RunBody.delayBetweenRequests (body req);
            RunOptions.environment := environment;
            RunOptions.variables := variables |}
         (at_world w' run) = (Returned out, run')
    /\ sent r = RunPayload out.
Proof.
  unfold post_collection_run, post_collection_run_try.
  destruct (RunBody.executionMode (body req)) as [mode|];
    [|intros [= <- <-]; discriminate].
  destruct (RunBody.environment (body req)) as [env|];
    [|intros [= <- <-]; discriminate].
  destruct (RunBody.variables (body req)) as [vars|];
    [|intros [= <- <-]; discriminate].
  destruct (select_collection _ _ _) as [[rows|m] w] eqn:Hsel;
    [|intros [= <- <-]; discriminate].
  destruct rows as [|row rows]; [intros [= <- <-]; discriminate|].
  cbn [length Nat.eqb].
  destruct (select_requests _ w) as [[requests|m] w'] eqn:Hreq;
    [|intros [= <- <-]; discriminate].
  destruct (runCollection _ _ _ _) as [[out|m] run1] eqn:Hrun;
    [|intros [= <- <-]; discriminate].
  intros [= <- <-] _.
  exists mode, env, vars, (row :: rows), w, requests, w', out.
  repeat split; try reflexivity; try assumption. discriminate.
Qed.
End RouteFacts.

(** X17: a body without [executionMode], [environment] or [variables] is
    answered 400 before anything else happens: no query is made and no
    request is sent. *)
Theorem post_collection_run_validation `{db : Database} (schedule : list nat)
    (req : RunRequest) (run : Run) :
  RunBody.executionMode (body req) = None
  \/ RunBody.environment (body req) = None
  \/ RunBody.variables (body req) = None ->
  post_collection_run schedule req run
  = ({| status_code := 400;
        sent := ErrorPayload
                  "executionMode, environment, and variables are required" |},
     run).
Proof.
  unfold post_collection_run, post_collection_run_try.
  intros [H|[H|H]]; rewrite H;
    repeat (destruct (_ (body req)) as [?|]; try reflexivity).
Qed.

Lemma post_collection_run_validation_witness :
  post_collection_run (db := SampleServer.database) []
    (SampleServer.request "1" (Some 10) (Some sequential) None) Sample.fresh
  = ({| status_code := 400;
        sent := ErrorPayload
                  "executionMode, environment, and variables are required" |},
     Sample.fresh).
Proof.
  apply (post_collection_run_validation (db := SampleServer.database)).
  right. right. reflexivity.
Defined.

(** X18: when the collection is not found in the workspace of the user the
    answer is 404; the requests are not read and none is sent. *)
Theorem post_collection_run_unknown `{db : Database} (schedule : list nat)
    (req : RunRequest) (run : Run) (w : World) :
  is_Some (RunBody.executionMode (body req)) ->
  is_Some (RunBody.environment (body req)) ->
  is_Some (RunBody.variables (body req)) ->
  select_collection (collectionId req) (workspace_id req) (world run)
  = (Returned [], w) ->
  post_collection_run schedule req run
  = ({| status_code := 404; sent := ErrorPayload "Collection not found" |},
     at_world w run).
Proof.
  intros [mode Hm] [env He] [vars Hv] Hsel.
  unfold post_collection_run, post_collection_run_try.
  now rewrite Hm, He, Hv, Hsel.
Qed.

Lemma post_collection_run_unknown_witness :
  post_collection_run (db := SampleServer.database) []
    (SampleServer.request "1" (Some 11) (Some sequential) (Some ∅)) Sample.fresh
  = ({| status_code := 404; sent := ErrorPayload "Collection not found" |},
     {| world := 1002; trace := [] |}).
Proof.
  apply (post_collection_run_unknown (db := SampleServer.database) []
           (SampleServer.request "1" (Some 11) (Some sequential) (Some ∅))
           Sample.fresh 1002); cbn; eauto.
Defined.

(** X19: the answer is 200 exactly when the three fields are present, the
    collection is found, its requests are read, and the URL of every request
    can be resolved against the variables of the body; a missing
    [delayBetweenRequests] does not matter. *)
Theorem post_collection_run_ok_iff `{db : Database} (schedule : list nat)
    (req : RunRequest) (run : Run) :
  status_code (fst (post_collection_run schedule req run)) = 200
  <-> exists variables rows w requests w',
        is_Some (RunBody.executionMode (body req))
        /\ is_Some (RunBody.environment (body req))
        /\ RunBody.variables (body req) = Some variables
        /\ select_collection (collectionId req) (workspace_id req) (world run)
           = (Returned rows, w)
        /\ rows <> []
        /\ select_requests (collectionId req) w = (Returned requests, w')
        /\ Forall (resolvable variables) requests.
Proof.
  split.
  - destruct (post_collection_run schedule req run) as [r run'] eqn:Hrun.
    cbn [fst]. intros Hcode.
    destruct (post_collection_run_ok _ _ _ _ _ Hrun Hcode)
      as (mode & env & vars & rows & w & requests & w' & out
          & Hm & He & Hv & Hsel & Hrows & Hreq & Hout & _).
    exists vars, rows, w, requests, w'.
    rewrite Hm, He. repeat split; eauto.
    change vars with (RunOptions.variables
                        {| RunOptions.executionMode := mode;
                           RunOptions.delayBetweenRequests :=
                             RunBody.delayBetweenRequests (body req);
                           RunOptions.environment := env;
                           RunOptions.variables := vars |}).
    eapply runCollection_returns_iff. eauto.
  - intros (vars & rows & w & requests & w' & [mode Hm] & [env He] & Hv
            & Hsel & Hrows & Hreq & Hall).
    unfold post_collection_run, post_collection_run_try.
    rewrite Hm, He, Hv, Hsel.
    destruct rows as [|row rows]; [congruence|]. cbn [length Nat.eqb].
    rewrite Hreq.
    destruct (runCollection_returns schedule requests
                {| RunOptions.executionMode := mode;
                   RunOptions.delayBetweenRequests :=
                     RunBody.delayBetweenRequests (body req);
                   RunOptions.environment := env;
                   RunOptions.variables := vars |}
                (at_world w' run) Hall) as (out & run' & ->).
    reflexivity.
Qed.

(** X20: an answer 200 carries the output of a run over the requests of the
    collection, in the order in which the database gave them: one result for
    each, with its id, and a summary that counts them all. *)
Theorem post_collection_run_payload `{db : Database} (schedule : list nat)
    (req : RunRequest) (run run' : Run) (r : reply) :
  post_collection_run schedule req run = (r, run') ->
  status_code r = 200 ->
  exists rows w requests w' out,
    select_collection (collectionId req) (workspace_id req) (world run)
    = (Returned rows, w)
    /\ select_requests (collectionId req) w = (Returned requests, w')
    /\ sent r = RunPayload out
    /\ map RequestResult.requestId (RunOutput.results out)
       = map RequestData.id requests
    /\ RunSummary.total (RunOutput.summary out) = length requests
    /\ (RunSummary.completed (RunOutput.summary out)
        + RunSummary.failed (RunOutput.summary out))%nat = length requests.
Proof.
  intros Hrun Hcode.
  destruct (post_collection_run_ok _ _ _ _ _ Hrun Hcode)
    as (mode & env & vars & rows & w & requests & w' & out
        & _ & _ & _ & Hsel & _ & Hreq & Hout & Hsent).
  exists rows, w, requests, w', out.
  destruct (runCollection_invariants _ _ _ _ _ _ Hout) as (Ht & _ & Hsum & _).
  destruct (runCollection_returned _ _ _ _ _ _ Hout) as (Hall & _).
  repeat split; try assumption.
  - clear -Hall. induction Hall as [|rq res rqs ress Hid _ IH]; [reflexivity|].
    cbn [map]. now rewrite Hid, IH.
  - now rewrite Hsum.
Qed.

Lemma post_collection_run_payload_witness :
  exists r run' out,
    post_collection_run (db := SampleServer.database) [1; 0]%nat
      (SampleServer.request "1" (Some 10) (Some parallel)
         (Some (<["id" := JNum 7]> ∅))) Sample.fresh = (r, run')
    /\ status_code r = 200
    /\ sent r = RunPayload out
    /\ map RequestResult.requestId (RunOutput.results out) = [1; 2]
    /\ RunSummary.total (RunOutput.summary out) = 2%nat.
Proof.
  eassert (E : post_collection_run (db := SampleServer.database) [1; 0]%nat
                 (SampleServer.request "1" (Some 10) (Some parallel)
                    (Some (<["id" := JNum 7]> ∅))) Sample.fresh
               = ({| status_code := 200; sent := _ |}, _))
    by (vm_compute; reflexivity).
  destruct (post_collection_run_payload (db := SampleServer.database)
              _ _ _ _ _ E eq_refl)
    as (rows & w & requests & w' & out & _ & Hreq & Hsent & Hids & Ht & _).
  vm_compute in Hreq. injection Hreq as <- <-.
  eexists _, _, out. split; [exact E|]. split; [reflexivity|].
  split; [exact Hsent|]. split; [exact Hids | exact Ht].
Defined.

(** X21: when the fields are present and the collection and its requests are
    read, but the URL of one request cannot be resolved, the answer is 500
    with the fixed message: the caller gets no result for any request and
    not the error either. *)
Theorem post_collection_run_unresolved `{db : Database} (schedule : list nat)
    (req : RunRequest) (run : Run) (variables : gmap string json)
    (rows : list Z) (w w' : World) (requests : list RequestData.t) :
  is_Some (RunBody.executionMode (body req)) ->
  is_Some (RunBody.environment (body req)) ->
  RunBody.variables (body req) = Some variables ->
  select_collection (collectionId req) (workspace_id req) (world run)
  = (Returned rows, w) ->
  rows <> [] ->
  select_requests (collectionId req) w = (Returned requests, w') ->
  ~ Forall (resolvable variables) requests ->
  fst (post_collection_run schedule req run)
  = {| status_code := 500; sent := ErrorPayload "Internal server error" |}.
Proof.
  intros [mode Hm] [env He] Hv Hsel Hrows Hreq Hnot.
  destruct (resolvable_or_split variables requests)
    as [Hall | (before & request & after & m & -> & Hb & Hthrown)];
    [contradiction|].
  unfold post_collection_run, post_collection_run_try.
  rewrite Hm, He, Hv, Hsel.
  destruct rows as [|row rows]; [congruence|]. cbn [length Nat.eqb].
  rewrite Hreq.
  pose proof (runCollection_first_failure schedule before after request
                {| RunOptions.executionMode := mode;
                   RunOptions.delayBetweenRequests :=
                     RunBody.delayBetweenRequests (body req);
                   RunOptions.environment := env;
                   RunOptions.variables := variables |}
                (at_world w' run) m Hb Hthrown) as H.
  destruct (runCollection _ _ _ _) as [[out|m'] run']; cbn [fst] in H;
    [discriminate | reflexivity].
Qed.

Lemma post_collection_run_unresolved_witness :
  fst (post_collection_run (db := SampleServer.database) []
         (SampleServer.request "1" (Some 10) (Some sequential)
            (Some (<["id" := JObj [("toString", JNull)]]> ∅))) Sample.fresh)
  = {| status_code := 500; sent := ErrorPayload "Internal server error" |}.
Proof.
  eapply (post_collection_run_unresolved (db := SampleServer.database) []
            (SampleServer.request "1" (Some 10) (Some sequential)
               (Some (<["id" := JObj [("toString", JNull)]]> ∅)))
            Sample.fresh _ [1] 1002 1005).
  - cbn; eauto.
  - cbn; eauto.
  - reflexivity.
  - vm_compute. reflexivity.
  - discriminate.
  - vm_compute. reflexivity.
  - intros H. apply Forall_cons in H as [[url Hurl] _].
    vm_compute in Hurl. discriminate.
Defined.

(** ** [initDatabase] *)

Lemma run_queries_app `{pool : Pool} (before after : list string)
    (db db1 : Tables) :
  run_queries before db = (Returned tt, db1) ->
  run_queries (before ++ after) db = run_queries after db1.
Proof.
  revert db. induction before as [|statement before IH]; intros db.
  - cbn. now intros [= ->].
  - cbn [run_queries app].
    destruct (pool_query statement db) as [[[]|m] db']; [apply IH | discriminate].
Qed.

(** X22: every statement of [initDatabase] creates one table, and each table
    that a foreign key of a statement refers to is created by a statement
    sent before it. *)
Theorem initDatabase_order (i : nat) (statement table : string) :
  init_statements !! i = Some statement ->
  table ∈ referenced_tables statement ->
  exists j earlier,
    (j < i)%nat
    /\ init_statements !! j = Some earlier
    /\ created_tables earlier = [table].
Proof.
  intros Hi Ht.
  do 6 (destruct i as [|i];
        [injection Hi as <-; vm_compute in Ht;
         repeat (apply elem_of_cons in Ht as [-> | Ht];
                 [first
                    [ exists 0%nat; eexists; split; [lia|]; split; [reflexivity|];
                      vm_compute; reflexivity
                    | exists 1%nat; eexists; split; [lia|]; split; [reflexivity|];
                      vm_compute; reflexivity
                    | exists 3%nat; eexists; split; [lia|]; split; [reflexivity|];
                      vm_compute; reflexivity ]|]);
         now apply elem_of_nil in Ht|]).
  discriminate.
Qed.

Lemma initDatabase_order_witness :
  init_statements !! 4%nat = Some createRequestsTable
  /\ "collections" ∈ referenced_tables createRequestsTable
  /\ exists j earlier,
       (j < 4)%nat
       /\ init_statements !! j = Some earlier
       /\ created_tables earlier = ["collections"].
Proof.
  assert (Ht : "collections" ∈ referenced_tables createRequestsTable).
  { vm_compute. apply elem_of_cons. right. apply elem_of_cons. now left. }
  split; [reflexivity|]. split; [exact Ht|].
  exact (initDatabase_order 4 createRequestsTable "collections" eq_refl Ht).
Defined.

(** X23: when a statement fails, the statements after it are not sent and
    the process exits with code 1; the tables made by the statements before
    it stay: the initialisation is not undone. *)
Theorem initDatabase_stops_at_first_failure `{pool : Pool}
    (before after : list string) (statement : string)
    (db db1 db2 : Tables) (m : string) :
  init_statements = before ++ statement :: after ->
  run_queries before db = (Returned tt, db1) ->
  pool_query statement db1 = (Thrown m, db2) ->
  initDatabase db = (Exited 1, db2).
Proof.
  intros Hsplit Hbefore Hfail. unfold initDatabase.
  rewrite Hsplit, (run_queries_app _ _ _ _ Hbefore).
  cbn [run_queries]. now rewrite Hfail.
Qed.

Lemma initDatabase_stops_at_first_failure_witness :
  initDatabase (pool := SamplePool.pool "collections") []
  = (Exited 1, ["users"; "workspaces"; "workspace_members"]).
Proof.
  apply (initDatabase_stops_at_first_failure
           (pool := SamplePool.pool "collections")
           [createUsersTable; createWorkspacesTable; createWorkspaceMembersTable]
           [createRequestsTable; createVariablesTable]
           createCollectionsTable []
           ["users"; "workspaces"; "workspace_members"]
           ["users"; "workspaces"; "workspace_members"]
           "permission denied for table collections").
  - reflexivity.
  - vm_compute. reflexivity.
  - vm_compute. reflexivity.
Defined.

(** ** Headers, body and params *)

(** X24: with a JSON codec that reads back what it writes, a truthy header,
    body or params value whose JSON text has no placeholder is sent as it is
    stored; a value that is absent or falsy is left out, whatever the codec
    does. *)
Theorem resolve_json_unchanged `{rt : Runtime} (field : option json)
    (variables : gmap string json) :
  (forall j, field = Some j -> json_truthy j = true ->
     JSON_parse (JSON_stringify j) = Returned j
     /\ ~ has_placeholder (JSON_stringify j)) ->
  resolve_json field variables
  = Returned (match field with
              | Some j => if json_truthy j then Some j else None
              | None => None
              end).
Proof.
  intros H. unfold resolve_json. destruct field as [j|]; [|reflexivity].
  destruct (json_truthy j) eqn:Ht; [|reflexivity].
  destruct (H j eq_refl Ht) as [Hcodec Hno].
  rewrite replaceVariables_unfold, (replace_global_no_placeholder _ _ Hno).
  cbn [bind]. now rewrite Hcodec.
Qed.

Lemma resolve_json_unchanged_witness :
  let headers := JObj [("Accept", JStr "application/json"); ("X-Retry", JNum 2)] in
  resolve_json (rt := Sample.runtime) (Some headers) (<["Accept" := JStr "x"]> ∅)
  = Returned (Some headers).
Proof.
  intros headers.
  apply (resolve_json_unchanged (rt := Sample.runtime) (Some headers)).
  intros j [= <-] _. split.
  - vm_compute. reflexivity.
  - rewrite has_placeholder_iff. vm_compute. discriminate.
Defined.
